(** * magnum-sceneconverter: the conversion pipeline of [main()]

    A shallow embedding of [src/Magnum/SceneTools/sceneconverter.cpp].
    [main()] is written as a function in a small monad that records the
    calls made on the plugins and the diagnostics printed, and that stops
    early on a [return] or on a failed assertion.  Plugins, the importer and
    the mesh tools living in other translation units are collaborators
    passed in through a [World] record. *)

From Stdlib Require Import String List Bool Arith ZArith Lia.
Import ListNotations.
Local Open Scope string_scope.
Local Open Scope list_scope.
Local Open Scope nat_scope.

Set Implicit Arguments.

(* ===================================================================== *)
(** ** Mesh data *)
(* ===================================================================== *)

(** Modelled from the spec: [Trade::MeshData] and its parts are declared in
    [Magnum/Trade/MeshData.h], which is outside the translated file.  The
    topology kinds are the ones section 3 of the specification lists. *)
Inductive MeshPrimitive :=
| Points | Lines | LineLoop | LineStrip
| Triangles | TriangleStrip | TriangleFan.

Definition MeshPrimitive_eqb (a b : MeshPrimitive) : bool :=
  match a, b with
  | Points, Points | Lines, Lines | LineLoop, LineLoop
  | LineStrip, LineStrip | Triangles, Triangles
  | TriangleStrip, TriangleStrip | TriangleFan, TriangleFan => true
  | _, _ => false
  end.

(** Modelled from the spec: an attribute descriptor is a semantic, a
    format, an offset into the vertex storage and a stride
    ([Trade::MeshAttributeData], section 3). *)
Record MeshAttributeData := {
  attributeName : nat;
  attributeFormat : nat;
  attributeOffset : nat;
  attributeStride : Z
}.

(** Modelled from the spec: the MeshBuffer of section 3
    ([Trade::MeshData]), with the arguments of the constructor called at
    lines 459-462 as its fields. *)
Record MeshData := {
  primitive : MeshPrimitive;
  indices : option (list nat);      (* [None]: the mesh is not indexed *)
  vertexData : list Z;              (* raw vertex storage *)
  attributes : list MeshAttributeData;
  vertexCount : nat
}.

Definition attributeCount (m : MeshData) : nat := length (attributes m).

Definition isIndexed (m : MeshData) : bool :=
  match indices m with Some _ => true | None => false end.

(* ===================================================================== *)
(** ** MeshTools::concatenate *)
(* ===================================================================== *)

Module MeshTools.

(** Modelled from the spec: [MeshTools::concatenate()] is declared in
    [Magnum/MeshTools/Concatenate.h] and defined outside the translated
    file.  Section 4.3: an input without an index buffer counts as indexed
    [0 .. vertexCount-1]. *)
Definition implicitIndices (m : MeshData) : list nat :=
  match indices m with
  | Some ix => ix
  | None => seq 0 (vertexCount m)
  end.

(** Modelled from the spec: the index buffer of the result, built input by
    input with an accumulating vertex offset added to each index. *)
Fixpoint concatenateIndices (vertexOffset : nat) (meshes : list MeshData)
  : list nat :=
  match meshes with
  | [] => []
  | m :: rest =>
      map (fun index => index + vertexOffset) (implicitIndices m)
        ++ concatenateIndices (vertexOffset + vertexCount m) rest
  end.

(** Modelled from the spec: strips, fans and loops encode adjacency
    implicitly and cannot be concatenated. *)
Definition concatenable (p : MeshPrimitive) : bool :=
  match p with
  | Points | Lines | Triangles => true
  | LineLoop | LineStrip | TriangleStrip | TriangleFan => false
  end.

(** Modelled from the spec: [MeshTools::concatenate()], section 4.3.
    [None] stands for the fatal precondition failure (no input, a
    strip/fan/loop topology, or two inputs of different topology).  The
    attribute layout is the one of the first input; the vertex storage is
    the inputs' storage in order; the result is indexed when some input is. *)
Definition concatenate (meshes : list MeshData) : option MeshData :=
  match meshes with
  | [] => None
  | first :: _ =>
      if concatenable (primitive first)
         && forallb (fun m => MeshPrimitive_eqb (primitive m) (primitive first))
                    meshes
      then Some {|
        primitive := primitive first;
        indices := if existsb isIndexed meshes
                   then Some (concatenateIndices 0 meshes)
                   else None;
        vertexData := concat (map vertexData meshes);
        attributes := attributes first;
        vertexCount := list_sum (map vertexCount meshes) |}
      else None
  end.

(** Number of vertices, and of (implicit) indices, contributed by a run
    of inputs. *)
Definition vertexTotal (meshes : list MeshData) : nat :=
  list_sum (map vertexCount meshes).

Definition indexTotal (meshes : list MeshData) : nat :=
  list_sum (map (fun m => length (implicitIndices m)) meshes).

End MeshTools.

(* ===================================================================== *)
(** ** Command line *)
(* ===================================================================== *)

Module Args.

(** The parsed [Utility::Arguments] of [main()]: one field per argument or
    option that the control flow of [main()] reads.  [converter] and
    [converter_options] are array options; [output] is empty when the
    argument was left out (allowed when some [--info] option is given). *)
Record t := {
  input : string;
  output : string;
  importer : string;
  converter : list string;
  map : bool;
  only_attributes : string;
  remove_duplicates : bool;
  remove_duplicates_fuzzy : string;
  importer_options : string;
  converter_options : list string;
  mesh : nat;
  level : nat;
  concatenate_meshes : bool;
  info_animations : bool;
  info_images : bool;
  info_lights : bool;
  info_cameras : bool;
  info_materials : bool;
  info_meshes : bool;
  info_objects : bool;
  info_scenes : bool;
  info_skins : bool;
  info_textures : bool;
  info : bool;
  verbose : bool;
  profile : bool
}.

End Args.

(** [isInfoRequested()], lines 218-230. *)
Definition isInfoRequested (args : Args.t) : bool :=
  Args.info_animations args ||
  Args.info_images args ||
  Args.info_lights args ||
  Args.info_cameras args ||
  Args.info_materials args ||
  Args.info_meshes args ||
  Args.info_objects args ||
  Args.info_scenes args ||
  Args.info_skins args ||
  Args.info_textures args ||
  Args.info args.

Definition isEmpty (s : string) : bool := String.eqb s "".

(* ===================================================================== *)
(** ** Plugins and other collaborators *)
(* ===================================================================== *)

(** Modelled from the spec: the capability set of a converter backend is
    drawn from these two features ([Trade::SceneConverterFeature] is
    declared in [Magnum/Trade/AbstractSceneConverter.h]). *)
Inductive SceneConverterFeature := ConvertMesh | ConvertMeshToFile.

Definition SceneConverterFeature_eqb (a b : SceneConverterFeature) : bool :=
  match a, b with
  | ConvertMesh, ConvertMesh | ConvertMeshToFile, ConvertMeshToFile => true
  | _, _ => false
  end.

(** [features & feature] *)
Definition hasFeature (features : list SceneConverterFeature)
    (feature : SceneConverterFeature) : bool :=
  existsb (SceneConverterFeature_eqb feature) features.

(** A converter plugin instance.  What [convert()] and [convertToFile()]
    do may depend on the [Verbose] flag and on the options set on the
    instance before the call, so both are arguments here. *)
Record AbstractSceneConverter := {
  features : list SceneConverterFeature;
  convert : bool -> option string -> MeshData -> option MeshData;
  convertToFile : bool -> option string -> MeshData -> string -> bool
}.

Section Collaborators.

(** [Matrix4] holds floating-point numbers and [Trade::SceneData] is only
    handed from the importer to [flattenMeshHierarchy3D()]: both stay
    abstract. *)
Variables Matrix4 SceneData : Type.

(** An importer plugin instance with a file opened. *)
Record AbstractImporter := {
  openMemory : list Z -> bool;
  openFile : string -> bool;
  meshCount : nat;
  importerMesh : nat -> nat -> option MeshData;      (* mesh(id, level) *)
  defaultScene : Z;                                  (* -1: none *)
  scene : nat -> option SceneData
}.

(** Everything [main()] calls that is defined outside the translated file:
    the two plugin managers ([loadAndInstantiate()] and [aliasList()]),
    [Utility::Path::mapRead()], [Implementation::printInfo()] (its result
    is the error flag), the mesh and scene tools, and Corrade's
    [Utility::String::parseNumberSequence(string, min, max)]. *)
Record World := {
  importerManager : string -> option AbstractImporter;
  importerAliasList : list string;
  converterManager : string -> option AbstractSceneConverter;
  converterAliasList : list string;
  mapRead : string -> option (list Z);
  printInfo : Args.t -> AbstractImporter -> bool;
  flattenMeshHierarchy3D : SceneData -> list (nat * Z * Matrix4);
  transform3D : MeshData -> Matrix4 -> MeshData;
  removeDuplicates : MeshData -> MeshData;
  removeDuplicatesFuzzy : MeshData -> string -> MeshData;
  parseNumberSequence : string -> nat -> nat -> option (list nat)
}.

End Collaborators.

(* ===================================================================== *)
(** ** Observable behaviour *)
(* ===================================================================== *)

(** What [main()] prints through [Debug], [Warning] and [Error]. *)
Inductive Diagnostic :=
| Warning_IgnoringOutputFile (output : string)
| Debug_AvailableImporterPlugins (aliases : list string)
| Error_CannotMemoryMapFile (input : string)
| Error_CannotOpenFile (input : string)
| Debug_ImportTook
| Error_NoMeshesFound (input : string)
| Error_CannotImportMesh (i : nat)
| Error_CannotImportScene (id : Z)
| Error_CannotImportTheMesh
| Debug_DuplicateRemoval (before after : nat)
| Debug_FuzzyDuplicateRemoval (before after : nat)
| Debug_AvailableConverterPlugins (aliases : list string)
| Debug_SavingOutput (n count : nat) (converterName : string)
| Debug_Processing (n count : nat) (converterName : string)
| Error_CannotSaveFile (output : string)
| Error_DoesntSupportMeshConversion (converterName : string)
    (only : list SceneConverterFeature)
| Error_CannotConvertTheMesh (converterName : string)
| Debug_ImportAndConversionTook.

(** The calls [main()] makes on its collaborators, in program order.  The
    converter calls carry the index [i] of the loop iteration (the hop). *)
Inductive Event :=
| Print (d : Diagnostic)
| ImporterLoadAndInstantiate (name : string)
| ImporterAddFlags
| ImporterSetOptions (options : string)
| PathMapRead (input : string)
| ImporterOpenFile (input : string)
| PrintInfo
| ImporterMesh (id level : nat)
| ImporterScene (id : nat)
| FlattenMeshHierarchy3D
| Transform3D (meshId : nat)
| Concatenate (meshCount : nat)
| RemoveDuplicates
| RemoveDuplicatesFuzzy (epsilon : string)
| ConverterLoadAndInstantiate (i : nat) (name : string)
| ConverterAddFlags (i : nat)
| ConverterSetOptions (i : nat) (options : string)
| ConverterConvertToFile (i : nat) (mesh : MeshData) (filename : string)
| ConverterConvert (i : nat) (mesh : MeshData).

(** A computation either goes on with a value, leaves [main()] through
    [return code], or dies on a failed assertion.  Assertions are taken as
    compiled in (the default build): a failed one aborts the process. *)
Inductive Result (A : Type) :=
| Value (a : A)
| Return (code : Z)
| AssertionFailed (expression : string).

Arguments Value {A} a.
Arguments Return {A} code.
Arguments AssertionFailed {A} expression.

Definition Run (A : Type) : Type := list Event * Result A.

Definition ret {A} (a : A) : Run A := ([], Value a).

Definition bind {A B} (m : Run A) (f : A -> Run B) : Run B :=
  match m with
  | (t, Value a) => let (t', r) := f a in (t ++ t', r)
  | (t, Return code) => (t, Return code)
  | (t, AssertionFailed e) => (t, AssertionFailed e)
  end.

Definition emit (e : Event) : Run unit := ([e], Value tt).
Definition say (d : Diagnostic) : Run unit := emit (Print d).
Definition exit {A} (code : Z) : Run A := ([], Return code).
Definition assert (condition : bool) (expression : string) : Run unit :=
  if condition then ret tt else ([], AssertionFailed expression).
Definition when (condition : bool) (m : Run unit) : Run unit :=
  if condition then m else ret tt.

Definition trace {A} (m : Run A) : list Event := fst m.
Definition result {A} (m : Run A) : Result A := snd m.

Declare Scope run_scope.
Delimit Scope run_scope with run.
Notation "x <- c1 ;; c2" := (bind c1 (fun x => c2))
  (at level 61, c1 at next level, right associativity) : run_scope.
Notation "c1 ;; c2" := (bind c1 (fun _ => c2))
  (at level 61, right associativity) : run_scope.
Local Open Scope run_scope.

(* ===================================================================== *)
(** ** [main()] *)
(* ===================================================================== *)

(** The implicit conversion of an [Int] argument to an [UnsignedInt]
    parameter: the value modulo 2^32. *)
Definition toUnsignedInt (value : Z) : nat :=
  Z.to_nat (value mod 4294967296).

Section Main.

Variables Matrix4 SceneData : Type.
Variable w : World Matrix4 SceneData.
Variable args : Args.t.

Let Importer := AbstractImporter SceneData.

(** Generic checks, lines 328-335. *)
Definition genericChecks : Run unit :=
  when (negb (isEmpty (Args.output args)))
    (when (isInfoRequested args)
       (say (Warning_IgnoringOutputFile (Args.output args)))).

(** Loading the importer plugin and setting its options, lines 347-355. *)
Definition loadImporter : Run Importer :=
  emit (ImporterLoadAndInstantiate (Args.importer args));;
  match importerManager w (Args.importer args) with
  | None =>
      say (Debug_AvailableImporterPlugins (importerAliasList w));;
      exit 1%Z
  | Some importer =>
      when (Args.verbose args) (emit ImporterAddFlags);;
      emit (ImporterSetOptions (Args.importer_options args));;
      ret importer
  end.

(** Opening the file, or mapping it if requested, lines 360-377. *)
Definition openInput (importer : Importer) : Run unit :=
  if Args.map args then
    emit (PathMapRead (Args.input args));;
    match mapRead w (Args.input args) with
    | Some mapped =>
        if openMemory importer mapped then ret tt
        else say (Error_CannotMemoryMapFile (Args.input args));; exit 3%Z
    | None => say (Error_CannotMemoryMapFile (Args.input args));; exit 3%Z
    end
  else
    emit (ImporterOpenFile (Args.input args));;
    if openFile importer (Args.input args) then ret tt
    else say (Error_CannotOpenFile (Args.input args));; exit 3%Z.

(** Printing file info, if requested, lines 379-388. *)
Definition info (importer : Importer) : Run unit :=
  if isInfoRequested args then
    emit PrintInfo;;
    let error := printInfo w args importer in
    when (Args.profile args) (say Debug_ImportTook);;
    exit (if error then 1%Z else 0%Z)
  else ret tt.

(** Lines 390-393. *)
Definition checkMeshCount (importer : Importer) : Run unit :=
  if meshCount importer =? 0 then
    say (Error_NoMeshesFound (Args.input args));; exit 1%Z
  else ret tt.

(** The import loop of lines 399-403, over the mesh ids still to do. *)
Fixpoint importMeshes (importer : Importer) (ids : list nat)
  : Run (list MeshData) :=
  match ids with
  | [] => ret []
  | i :: rest =>
      emit (ImporterMesh i 0);;
      match importerMesh importer i 0 with
      | None => say (Error_CannotImportMesh i);; exit 1%Z
      | Some m =>
          meshes <- importMeshes importer rest;;
          ret (m :: meshes)
      end
  end.

(** The loop of lines 417-418 over the flattened hierarchy; [meshes[id]]
    with an id out of range fails the array's bounds assertion. *)
Fixpoint flattenedMeshes (meshes : list MeshData)
    (hierarchy : list (nat * Z * Matrix4)) : Run (list MeshData) :=
  match hierarchy with
  | [] => ret []
  | (meshId, _, transformation) :: rest =>
      match nth_error meshes meshId with
      | None => ([], AssertionFailed "meshes[i]: index out of range")
      | Some m =>
          emit (Transform3D meshId);;
          flattened <- flattenedMeshes meshes rest;;
          ret (transform3D w m transformation :: flattened)
      end
  end.

(** Lines 405-420: with a default scene the hierarchy is flattened, without
    one all meshes are assumed to be in the root.  [defaultScene()] is an
    [Int] and [scene()] takes an [UnsignedInt] (line 410): the id asked for
    is the converted one, the id of the message the [Int]. *)
Definition flattenStage (importer : Importer) (meshes : list MeshData)
  : Run (list MeshData) :=
  if negb (defaultScene importer =? -1)%Z then
    emit (ImporterScene (toUnsignedInt (defaultScene importer)));;
    match scene importer (toUnsignedInt (defaultScene importer)) with
    | None =>
        say (Error_CannotImportScene (defaultScene importer));; exit 1%Z
    | Some scene =>
        emit FlattenMeshHierarchy3D;;
        flattenedMeshes meshes (flattenMeshHierarchy3D w scene)
    end
  else ret meshes.

(** Lines 395-440: the mesh the rest of the pipeline works on.
    [MeshTools::concatenate()] asserts on inputs it cannot take. *)
Definition inputMesh (importer : Importer) : Run MeshData :=
  if Args.concatenate_meshes args then
    meshes <- importMeshes importer (seq 0 (meshCount importer));;
    meshes <- flattenStage importer meshes;;
    emit (Concatenate (length meshes));;
    match MeshTools.concatenate meshes with
    | None => ([], AssertionFailed "MeshTools::concatenate()")
    | Some mesh => ret mesh
    end
  else
    emit (ImporterMesh (Args.mesh args) (Args.level args));;
    match importerMesh importer (Args.mesh args) (Args.level args) with
    | None => say Error_CannotImportTheMesh;; exit 4%Z
    | Some mesh => ret mesh
    end.

(** The loop of lines 454-455; [MeshData::attributeData(i)] asserts
    [i < attributeCount()]. *)
Fixpoint attributeDatas (mesh : MeshData) (only : list nat)
  : Run (list MeshAttributeData) :=
  match only with
  | [] => ret []
  | i :: rest =>
      match nth_error (attributes mesh) i with
      | None => ([], AssertionFailed "MeshData::attributeData()")
      | Some attribute =>
          selected <- attributeDatas mesh rest;;
          ret (attribute :: selected)
      end
  end.

(** Filtering attributes, if requested, lines 445-463. *)
Definition filterAttributes (mesh : MeshData) : Run MeshData :=
  if negb (isEmpty (Args.only_attributes args)) then
    match parseNumberSequence w (Args.only_attributes args) 0
            (attributeCount mesh) with
    | None => exit 2%Z
    | Some only =>
        selected <- attributeDatas mesh only;;
        ret {| primitive := primitive mesh;
               indices := indices mesh;
               vertexData := vertexData mesh;
               attributes := selected;
               vertexCount := vertexCount mesh |}
    end
  else ret mesh.

(** Removing duplicates, if requested, lines 465-474. *)
Definition removeDuplicatesStage (mesh : MeshData) : Run MeshData :=
  if Args.remove_duplicates args then
    let beforeVertexCount := vertexCount mesh in
    emit RemoveDuplicates;;
    let mesh' := removeDuplicates w mesh in
    when (Args.verbose args)
      (say (Debug_DuplicateRemoval beforeVertexCount (vertexCount mesh')));;
    ret mesh'
  else ret mesh.

(** Removing duplicates with fuzzy comparison, lines 476-486. *)
Definition removeDuplicatesFuzzyStage (mesh : MeshData) : Run MeshData :=
  if negb (isEmpty (Args.remove_duplicates_fuzzy args)) then
    let beforeVertexCount := vertexCount mesh in
    emit (RemoveDuplicatesFuzzy (Args.remove_duplicates_fuzzy args));;
    let mesh' :=
      removeDuplicatesFuzzy w mesh (Args.remove_duplicates_fuzzy args) in
    when (Args.verbose args)
      (say (Debug_FuzzyDuplicateRemoval beforeVertexCount
              (vertexCount mesh')));;
    ret mesh'
  else ret mesh.

(** [args.arrayValueCount("converter")] *)
Definition converterCount : nat := length (Args.converter args).

(** Lines 495-496: the plugin name of iteration [i]. *)
Definition converterName (i : nat) : string :=
  if i =? converterCount then "AnySceneConverter"
  else nth i (Args.converter args) "".

(** Lines 505-506: the options set on the converter of iteration [i]. *)
Definition converterOptions (i : nat) : option string :=
  if i <? length (Args.converter_options args)
  then Some (nth i (Args.converter_options args) "")
  else None.

(** The body of the converter loop, lines 494-540, for iteration [i] and
    the current mesh.  [None] is the [break]; [Some mesh'] goes on to the
    next iteration with the converted mesh. *)
Definition converterStep (i : nat) (mesh : MeshData)
  : Run (option MeshData) :=
  emit (ConverterLoadAndInstantiate i (converterName i));;
  match converterManager w (converterName i) with
  | None =>
      say (Debug_AvailableConverterPlugins (converterAliasList w));;
      exit 2%Z
  | Some converter =>
      when (Args.verbose args) (emit (ConverterAddFlags i));;
      match converterOptions i with
      | Some options => emit (ConverterSetOptions i options)
      | None => ret tt
      end;;
      if (converterCount <=? i + 1)
         && hasFeature (features converter) ConvertMeshToFile
      then
        when ((1 <? converterCount) && Args.verbose args)
          (say (Debug_SavingOutput (i + 1) converterCount (converterName i)));;
        emit (ConverterConvertToFile i mesh (Args.output args));;
        if convertToFile converter (Args.verbose args) (converterOptions i)
             mesh (Args.output args)
        then ret None
        else say (Error_CannotSaveFile (Args.output args));; exit 5%Z
      else
        assert (i <? converterCount) "i < converterCount";;
        when ((1 <? converterCount) && Args.verbose args)
          (say (Debug_Processing (i + 1) converterCount (converterName i)));;
        if negb (hasFeature (features converter) ConvertMesh) then
          say (Error_DoesntSupportMeshConversion (converterName i)
                 (features converter));;
          exit 6%Z
        else
          emit (ConverterConvert i mesh);;
          match convert converter (Args.verbose args) (converterOptions i)
                  mesh with
          | None => say (Error_CannotConvertTheMesh (converterName i));;
                    exit 7%Z
          | Some mesh' => ret (Some mesh')
          end
  end.

(** The loop [for(i = 0; i <= converterCount; ++i)] of line 493, started at
    [i].  [fuel] bounds the number of iterations; [S converterCount - i]
    of them is all the loop can make. *)
Fixpoint converterLoop (fuel : nat) (i : nat) (mesh : MeshData) : Run unit :=
  match fuel with
  | 0 => ret tt
  | S fuel' =>
      if i <=? converterCount then
        next <- converterStep i mesh;;
        match next with
        | None => ret tt
        | Some mesh' => converterLoop fuel' (S i) mesh'
        end
      else ret tt
  end.

Definition converterChain (mesh : MeshData) : Run unit :=
  converterLoop (S converterCount) 0 mesh.

(** [main()], lines 328-547, after argument parsing. *)
Definition main : Run unit :=
  genericChecks;;
  importer <- loadImporter;;
  openInput importer;;
  info importer;;
  checkMeshCount importer;;
  mesh <- inputMesh importer;;
  mesh <- filterAttributes mesh;;
  mesh <- removeDuplicatesStage mesh;;
  mesh <- removeDuplicatesFuzzyStage mesh;;
  converterChain mesh;;
  when (Args.profile args) (say Debug_ImportAndConversionTook).

End Main.

(** How the process ends: falling off the end of [main()] is exit code 0. *)
Inductive Termination :=
| Exited (code : Z)
| Aborted (expression : string).

Definition termination (r : Result unit) : Termination :=
  match r with
  | Value _ => Exited 0
  | Return code => Exited code
  | AssertionFailed e => Aborted e
  end.


(** The loop iteration an event belongs to, for the converter calls. *)
Definition hopOf (e : Event) : option nat :=
  match e with
  | ConverterLoadAndInstantiate i _ | ConverterAddFlags i
  | ConverterSetOptions i _ | ConverterConvertToFile i _ _
  | ConverterConvert i _ => Some i
  | _ => None
  end.

(** A conversion operation invoked on a converter. *)
Definition isConversion (e : Event) : bool :=
  match e with
  | ConverterConvertToFile _ _ _ | ConverterConvert _ _ => true
  | _ => false
  end.

(* ===================================================================== *)
(** ** Vocabulary for the properties *)
(* ===================================================================== *)

Section Observations.

Variables Matrix4 SceneData : Type.
Variable w : World Matrix4 SceneData.
Variable args : Args.t.

(** Iteration [i] is one that writes the file: it is the last requested
    converter or the implicit one after it, and its plugin has
    [ConvertMeshToFile] (the test of line 510). *)
Definition writesFile (i : nat) : Prop :=
  converterCount args <= i + 1 /\
  exists converter,
    converterManager w (converterName args i) = Some converter /\
    hasFeature (features converter) ConvertMeshToFile = true.

(** [executes fuel i mesh k meshk]: the loop entered at iteration [i] with
    [mesh] gets to run iteration [k], and [meshk] is the mesh it has then. *)
Inductive executes : nat -> nat -> MeshData -> nat -> MeshData -> Prop :=
| executes_now fuel i mesh :
    i <= converterCount args -> executes (S fuel) i mesh i mesh
| executes_later fuel i mesh mesh' k meshk :
    i <= converterCount args ->
    result (converterStep w args i mesh) = Value (Some mesh') ->
    executes fuel (S i) mesh' k meshk ->
    executes (S fuel) i mesh k meshk.

(** [main()] up to the converter loop: what it does before line 488, and
    the mesh it hands to the first converter. *)
Definition preparation : Run MeshData :=
  genericChecks args;;
  importer <- loadImporter w args;;
  openInput w args importer;;
  info w args importer;;
  checkMeshCount args importer;;
  mesh <- inputMesh w args importer;;
  mesh <- filterAttributes w args mesh;;
  mesh <- removeDuplicatesStage w args mesh;;
  removeDuplicatesFuzzyStage w args mesh.

(** The input opens: the conditions of lines 365 and 373. *)
Definition opens (importer : AbstractImporter SceneData) : bool :=
  if Args.map args then
    match mapRead w (Args.input args) with
    | Some mapped => openMemory importer mapped
    | None => false
    end
  else openFile importer (Args.input args).

(** The terminal-hop rule in the specification's words: only the implicit
    last iteration, [i = converterCount], writes the file. *)
Definition onlyDefaultHopWrites (mesh : MeshData) : Prop :=
  forall i m f,
    In (ConverterConvertToFile i m f) (trace (converterChain w args mesh)) ->
    i = converterCount args.

(** The specification's rule for a last iteration whose plugin cannot
    write a file: the run ends with the capability-mismatch exit code. *)
Definition defaultHopMismatchReported (mesh : MeshData) : Prop :=
  forall converter,
    In (ConverterLoadAndInstantiate (converterCount args) "AnySceneConverter")
       (trace (converterChain w args mesh)) ->
    converterManager w "AnySceneConverter" = Some converter ->
    hasFeature (features converter) ConvertMeshToFile = false ->
    result (converterChain w args mesh) = Return 6%Z.

(** The specification's rule for the attribute filter: a selection that
    names an ordinal not below the attribute count makes the filter fail. *)
Definition outOfRangeRejected (mesh : MeshData) (selected : list nat) : Prop :=
  (exists i, In i selected /\ ~ i < attributeCount mesh) ->
  exists code, result (filterAttributes w args mesh) = Return code.

End Observations.

(** Events that can only come from the part of [main()] before the
    mesh-count check of line 390. *)
Definition beforeMeshCountCheck (e : Event) : bool :=
  match e with
  | Print (Warning_IgnoringOutputFile _)
  | Print (Debug_AvailableImporterPlugins _)
  | Print (Error_CannotMemoryMapFile _)
  | Print (Error_CannotOpenFile _)
  | Print Debug_ImportTook
  | ImporterLoadAndInstantiate _ | ImporterAddFlags | ImporterSetOptions _
  | PathMapRead _ | ImporterOpenFile _ | PrintInfo => true
  | _ => false
  end.

(* ===================================================================== *)
(** ** Corrade's number-sequence parser *)
(* ===================================================================== *)

Module Corrade.

Local Open Scope N_scope.

(** [Utility::String::parseNumberSequence(string, min, max)] belongs to
    Corrade, a library [main()] links against; it is not part of this
    repository.  The definition follows the function as Corrade documents
    it: numbers are separated by commas, semicolons or whitespace, [a-b]
    is an inclusive range with either end optional, a number below [min],
    not below [max] or not fitting 32 bits is left out of the result, and
    any other character makes the function print an error and return
    nothing.  [main()] takes it through the [World]; this instance is what
    the example worlds below plug in. *)
Record State := {
  out : list N;
  hasNumber : bool;
  number : N;
  overflow : bool;
  rangeStart : N      (* [~0] when not in a range *)
}.

Definition notInRange : N := 4294967295.

Definition isDelimiter (c : Ascii.ascii) : bool :=
  match Ascii.N_of_ascii c with
  | 44 | 59 | 32 | 9 | 12 | 11 | 13 | 10 => true
  | _ => false
  end.

Definition isDigit (c : Ascii.ascii) : bool :=
  (48 <=? Ascii.N_of_ascii c) && (Ascii.N_of_ascii c <=? 57).

Definition isDash (c : Ascii.ascii) : bool := Ascii.N_of_ascii c =? 45.

Fixpoint iota (start : N) (count : nat) : list N :=
  match count with
  | O => []
  | S count' => start :: iota (start + 1) count'
  end.

Definition reset (output : list N) (range : N) : State :=
  {| out := output; hasNumber := false; number := 0; overflow := false;
     rangeStart := range |}.

(** End of the string or a delimiter: the piece read so far is added. *)
Definition endPiece (min max : N) (s : State) : State :=
  if overflow s then reset (out s) (rangeStart s)
  else if negb (rangeStart s =? notInRange) then
    let rangeEnd :=
      if hasNumber s && (number s <? max) then number s + 1 else max in
    reset (if rangeStart s <? rangeEnd
           then out s ++ iota (rangeStart s) (N.to_nat (rangeEnd - rangeStart s))
           else out s)
          notInRange
  else if hasNumber s && (min <=? number s) && (number s <? max) then
    reset (out s ++ [number s]) (rangeStart s)
  else reset (out s) (rangeStart s).

Definition addDigit (c : Ascii.ascii) (s : State) : State :=
  let next := number s * 10 + (Ascii.N_of_ascii c - 48) in
  {| out := out s; hasNumber := true; number := next mod 4294967296;
     overflow := overflow s || (notInRange <? next);
     rangeStart := rangeStart s |}.

Definition startRange (min : N) (s : State) : State :=
  {| out := out s; hasNumber := false; number := 0; overflow := overflow s;
     rangeStart := if hasNumber s && (min <=? number s) then number s
                   else min |}.

Fixpoint parse (min max : N) (text : string) (s : State) : option (list N) :=
  match text with
  | EmptyString => Some (out (endPiece min max s))
  | String c rest =>
      if isDelimiter c then parse min max rest (endPiece min max s)
      else if isDigit c then parse min max rest (addDigit c s)
      else if isDash c then parse min max rest (startRange min s)
      else None
  end.

Definition parseNumberSequence (text : string) (min max : N)
  : option (list N) :=
  parse min max text (reset [] notInRange).

End Corrade.

(* ===================================================================== *)
(** ** Example worlds *)
(* ===================================================================== *)

Module Example.

Definition position : MeshAttributeData :=
  {| attributeName := 0; attributeFormat := 3; attributeOffset := 0;
     attributeStride := 32 |}.
Definition normal : MeshAttributeData :=
  {| attributeName := 2; attributeFormat := 3; attributeOffset := 12;
     attributeStride := 32 |}.
Definition textureCoordinates : MeshAttributeData :=
  {| attributeName := 3; attributeFormat := 2; attributeOffset := 24;
     attributeStride := 32 |}.

(** An indexed triangle and a non-indexed pair of triangles. *)
Definition triangle : MeshData :=
  {| primitive := Triangles; indices := Some [0; 2; 1];
     vertexData := [10; 11; 12]%Z;
     attributes := [position; normal; textureCoordinates];
     vertexCount := 3 |}.

Definition quad : MeshData :=
  {| primitive := Triangles; indices := None;
     vertexData := [20; 21; 22; 23; 24; 25]%Z;
     attributes := [position; normal; textureCoordinates];
     vertexCount := 6 |}.

(** The two of them concatenated. *)
Definition merged : MeshData :=
  {| primitive := Triangles; indices := Some [0; 2; 1; 3; 4; 5; 6; 7; 8];
     vertexData := [10; 11; 12; 20; 21; 22; 23; 24; 25]%Z;
     attributes := [position; normal; textureCoordinates];
     vertexCount := 9 |}.

(** An importer that opens every file, holds [meshes] at level 0 and has
    no default scene. *)
Definition importerOf (meshes : list MeshData) : AbstractImporter unit :=
  {| openMemory := fun _ => true;
     openFile := fun _ => true;
     meshCount := length meshes;
     importerMesh := fun id level =>
       if level =? 0 then nth_error meshes id else None;
     defaultScene := (-1)%Z;
     scene := fun _ => None |}.

(** Plugins with [ConvertMesh] only, with [ConvertMeshToFile] only, and
    with no feature at all. *)
Definition inMemory : AbstractSceneConverter :=
  {| features := [ConvertMesh];
     convert := fun _ _ mesh => Some mesh;
     convertToFile := fun _ _ _ _ => false |}.

Definition toFile : AbstractSceneConverter :=
  {| features := [ConvertMeshToFile];
     convert := fun _ _ _ => None;
     convertToFile := fun _ _ _ _ => true |}.

Definition featureless : AbstractSceneConverter :=
  {| features := [];
     convert := fun _ _ _ => None;
     convertToFile := fun _ _ _ _ => false |}.

(** A world whose input file holds [meshes] and whose
    [AnySceneConverter] is [anySceneConverter]. *)
Definition world (meshes : list MeshData)
    (anySceneConverter : AbstractSceneConverter) : World unit unit :=
  {| importerManager := fun name =>
       if String.eqb name "AnySceneImporter"
       then Some (importerOf meshes) else None;
     importerAliasList := ["AnySceneImporter"];
     converterManager := fun name =>
       if String.eqb name "AnySceneConverter" then Some anySceneConverter
       else if String.eqb name "MeshOptimizerSceneConverter"
       then Some inMemory
       else if String.eqb name "StanfordSceneConverter" then Some toFile
       else if String.eqb name "Featureless" then Some featureless
       else None;
     converterAliasList :=
       ["AnySceneConverter"; "MeshOptimizerSceneConverter";
        "StanfordSceneConverter"; "Featureless"];
     mapRead := fun _ => None;
     printInfo := fun _ _ => false;
     flattenMeshHierarchy3D := fun _ => [];
     transform3D := fun mesh _ => mesh;
     removeDuplicates := fun mesh => mesh;
     removeDuplicatesFuzzy := fun mesh _ => mesh;
     parseNumberSequence := fun text min max =>
       option_map (List.map N.to_nat)
         (Corrade.parseNumberSequence text (N.of_nat min) (N.of_nat max)) |}.

(** A command line: everything not given here is left at its default. *)
Definition arguments (output : string) (converter converterOptions : list string)
    (onlyAttributes : string) (concatenateMeshes info : bool) : Args.t :=
  {| Args.input := "chair.obj";
     Args.output := output;
     Args.importer := "AnySceneImporter";
     Args.converter := converter;
     Args.map := false;
     Args.only_attributes := onlyAttributes;
     Args.remove_duplicates := false;
     Args.remove_duplicates_fuzzy := "";
     Args.importer_options := "";
     Args.converter_options := converterOptions;
     Args.mesh := 0;
     Args.level := 0;
     Args.concatenate_meshes := concatenateMeshes;
     Args.info_animations := false;
     Args.info_images := false;
     Args.info_lights := false;
     Args.info_cameras := false;
     Args.info_materials := false;
     Args.info_meshes := false;
     Args.info_objects := false;
     Args.info_scenes := false;
     Args.info_skins := false;
     Args.info_textures := false;
     Args.info := info;
     Args.verbose := false;
     Args.profile := false |}.

End Example.

(* ===================================================================== *)
(** ** More vocabulary: what a trace says about the converters *)
(* ===================================================================== *)

(** The [convertToFile()] calls of a trace, in order. *)
Definition isFileWrite (e : Event) : bool :=
  match e with
  | ConverterConvertToFile _ _ _ => true
  | _ => false
  end.

Definition fileWrites (t : list Event) : list Event := filter isFileWrite t.

(** The [loadAndInstantiate()] calls on the converter manager, in order:
    loop index and plugin name. *)
Definition loadedConverters (t : list Event) : list (nat * string) :=
  flat_map (fun e => match e with
                     | ConverterLoadAndInstantiate i name => [(i, name)]
                     | _ => []
                     end) t.

(** The loop index and the mesh a conversion call is made with. *)
Definition conversionInput (e : Event) : option (nat * MeshData) :=
  match e with
  | ConverterConvertToFile i mesh _ | ConverterConvert i mesh => Some (i, mesh)
  | _ => None
  end.

(** What each [return] of [main()] has printed or done before it: the
    exit codes of lines 350-538 with the diagnostic of the same branch.
    Code 2 has no diagnostic of its own when it comes from line 448. *)
Inductive explained (args : Args.t) : Z -> list Event -> Prop :=
| explained_info t :
    isInfoRequested args = true -> In PrintInfo t -> explained args 0 t
| explained_info_error t :
    isInfoRequested args = true -> In PrintInfo t -> explained args 1 t
| explained_importer t aliases :
    In (Print (Debug_AvailableImporterPlugins aliases)) t -> explained args 1 t
| explained_no_meshes t :
    In (Print (Error_NoMeshesFound (Args.input args))) t -> explained args 1 t
| explained_mesh t i :
    In (Print (Error_CannotImportMesh i)) t -> explained args 1 t
| explained_scene t id :
    In (Print (Error_CannotImportScene id)) t -> explained args 1 t
| explained_attributes t :
    isEmpty (Args.only_attributes args) = false -> explained args 2 t
| explained_converter t aliases :
    In (Print (Debug_AvailableConverterPlugins aliases)) t -> explained args 2 t
| explained_map t :
    Args.map args = true ->
    In (Print (Error_CannotMemoryMapFile (Args.input args))) t ->
    explained args 3 t
| explained_open t :
    Args.map args = false ->
    In (Print (Error_CannotOpenFile (Args.input args))) t ->
    explained args 3 t
| explained_the_mesh t :
    Args.concatenate_meshes args = false ->
    In (Print Error_CannotImportTheMesh) t -> explained args 4 t
| explained_save t :
    In (Print (Error_CannotSaveFile (Args.output args))) t -> explained args 5 t
| explained_mismatch t name only :
    In (Print (Error_DoesntSupportMeshConversion name only)) t ->
    explained args 6 t
| explained_convert t name :
    In (Print (Error_CannotConvertTheMesh name)) t -> explained args 7 t.

(** A computation whose every [return code] is explained by its trace. *)
Definition tabled (args : Args.t) {A} (m : Run A) : Prop :=
  forall code, result m = Return code -> explained args code (trace m).

(* ===================================================================== *)
(** ** Colored output *)
(* ===================================================================== *)

(** [Debug::Flags{}] or [Debug::Flag::DisableColors]. *)
Inductive DebugFlags := NoFlags | DisableColors.

(** Lines 303-326: [useColor] and [useColor24], which [main()] hands to
    [printInfo()], from the value of [--color], [Debug::isTty()] and the
    environment variable [COLORTERM] ([None] when it is not set: the
    string view made of a null pointer is empty). *)
Definition colorOutput (color : string) (isTty : bool)
    (COLORTERM : option string) : DebugFlags * bool :=
  if String.eqb color "on" then (NoFlags, true)
  else if String.eqb color "4bit" then (NoFlags, false)
  else if String.eqb color "off" then (DisableColors, false)
  else if isTty then
    let colorterm := match COLORTERM with Some value => value | None => "" end in
    (NoFlags,
     String.eqb colorterm "truecolor" || String.eqb colorterm "24bit")
  else (DisableColors, false).

(* ===================================================================== *)
(** ** More example worlds *)
(* ===================================================================== *)

Module Scenario.

(** A scene is given by its flattened hierarchy: mesh id, object id and a
    translation that stands for the transformation matrix. *)
Definition Scene : Type := list (nat * Z * Z).

Definition translate (mesh : MeshData) (offset : Z) : MeshData :=
  {| primitive := primitive mesh;
     indices := indices mesh;
     vertexData := map (Z.add offset) (vertexData mesh);
     attributes := attributes mesh;
     vertexCount := vertexCount mesh |}.

(** An importer over the given meshes ([None]: the mesh fails to import)
    and scenes. *)
Definition importer (opens : bool) (meshes : list (option MeshData))
    (scenes : list Scene) (default : Z) : AbstractImporter Scene :=
  {| openMemory := fun _ => opens;
     openFile := fun _ => opens;
     meshCount := length meshes;
     importerMesh := fun id level =>
       if level =? 0 then
         match nth_error meshes id with
         | Some mesh => mesh
         | None => None
         end
       else None;
     defaultScene := default;
     scene := fun id => nth_error scenes id |}.

(** Converters whose calls fail. *)
Definition failing : AbstractSceneConverter :=
  {| features := [ConvertMesh];
     convert := fun _ _ _ => None;
     convertToFile := fun _ _ _ _ => false |}.

Definition readOnly : AbstractSceneConverter :=
  {| features := [ConvertMeshToFile];
     convert := fun _ _ _ => None;
     convertToFile := fun _ _ _ _ => false |}.

Definition converters (name : string) : option AbstractSceneConverter :=
  if String.eqb name "AnySceneConverter" then Some Example.toFile
  else if String.eqb name "MeshOptimizerSceneConverter"
  then Some Example.inMemory
  else if String.eqb name "Failing" then Some failing
  else if String.eqb name "ReadOnly" then Some readOnly
  else None.

Definition world (anImporter : AbstractImporter Scene) : World Z Scene :=
  {| importerManager := fun name =>
       if String.eqb name "AnySceneImporter" then Some anImporter else None;
     importerAliasList := ["AnySceneImporter"];
     converterManager := converters;
     converterAliasList :=
       ["AnySceneConverter"; "MeshOptimizerSceneConverter"; "Failing";
        "ReadOnly"];
     mapRead := fun _ => None;
     printInfo := fun _ _ => false;
     flattenMeshHierarchy3D := fun aScene => aScene;
     transform3D := translate;
     removeDuplicates := fun mesh => mesh;
     removeDuplicatesFuzzy := fun mesh _ => mesh;
     parseNumberSequence := fun text min max =>
       option_map (List.map N.to_nat)
         (Corrade.parseNumberSequence text (N.of_nat min) (N.of_nat max)) |}.

(** A command line like [base] but for the options given here. *)
Definition arguments (base : Args.t) (importer : string)
    (map verbose removeDuplicates : bool) (fuzzy : string) : Args.t :=
  {| Args.input := Args.input base;
     Args.output := Args.output base;
     Args.importer := importer;
     Args.converter := Args.converter base;
     Args.map := map;
     Args.only_attributes := Args.only_attributes base;
     Args.remove_duplicates := removeDuplicates;
     Args.remove_duplicates_fuzzy := fuzzy;
     Args.importer_options := Args.importer_options base;
     Args.converter_options := Args.converter_options base;
     Args.mesh := Args.mesh base;
     Args.level := Args.level base;
     Args.concatenate_meshes := Args.concatenate_meshes base;
     Args.info_animations := Args.info_animations base;
     Args.info_images := Args.info_images base;
     Args.info_lights := Args.info_lights base;
     Args.info_cameras := Args.info_cameras base;
     Args.info_materials := Args.info_materials base;
     Args.info_meshes := Args.info_meshes base;
     Args.info_objects := Args.info_objects base;
     Args.info_scenes := Args.info_scenes base;
     Args.info_skins := Args.info_skins base;
     Args.info_textures := Args.info_textures base;
     Args.info := Args.info base;
     Args.verbose := verbose;
     Args.profile := Args.profile base |}.

End Scenario.

Unset Implicit Arguments.

(* ===================================================================== *)
(** ** Laws of the monad *)
(* ===================================================================== *)

Lemma trace_bind A B (m : Run A) (f : A -> Run B) :
  trace (bind m f) =
  trace m ++ match result m with Value a => trace (f a) | _ => [] end.
Proof.
  destruct m as [t [a|c|e]]; simpl; try (symmetry; apply app_nil_r).
  destruct (f a); reflexivity.
Qed.

Lemma result_bind A B (m : Run A) (f : A -> Run B) :
  result (bind m f) =
  match result m with
  | Value a => result (f a)
  | Return c => Return c
  | AssertionFailed e => AssertionFailed e
  end.
Proof.
  destruct m as [t [a|c|e]]; simpl; try reflexivity.
  destruct (f a); reflexivity.
Qed.

Lemma bind_ext A B (m : Run A) (f g : A -> Run B) :
  (forall a, f a = g a) -> bind m f = bind m g.
Proof.
  intros E. destruct m as [t [a|c|e]]; simpl; try reflexivity.
  now rewrite E.
Qed.

Lemma bind_assoc A B C (m : Run A) (f : A -> Run B) (g : B -> Run C) :
  bind (bind m f) g = bind m (fun a => bind (f a) g).
Proof.
  destruct m as [t [a|c|e]]; simpl; try reflexivity.
  destruct (f a) as [t' [b|c|e]]; simpl; try reflexivity.
  destruct (g b) as [t'' r]. now rewrite app_assoc.
Qed.

(* ===================================================================== *)
(** ** One iteration of the converter loop *)
(* ===================================================================== *)

Ltac case_inner :=
  match goal with
  | |- context [match ?x with _ => _ end] =>
      lazymatch x with
      | context [match _ with _ => _ end] => fail
      | _ => destruct x eqn:?
      end
  end.

Ltac bools :=
  repeat match goal with
  | H : (_ && _) = true |- _ => apply andb_true_iff in H; destruct H
  | H : (_ && _) = false |- _ => apply andb_false_iff in H; destruct H
  | H : negb _ = true |- _ => apply negb_true_iff in H
  | H : negb _ = false |- _ => apply negb_false_iff in H
  | H : (_ <=? _) = true |- _ => apply Nat.leb_le in H
  | H : (_ <=? _) = false |- _ => apply Nat.leb_gt in H
  | H : (_ <? _) = true |- _ => apply Nat.ltb_lt in H
  | H : (_ <? _) = false |- _ => apply Nat.ltb_ge in H
  | H : (_ =? _) = true |- _ => apply Nat.eqb_eq in H
  | H : (_ =? _) = false |- _ => apply Nat.eqb_neq in H
  end.

Ltac step_cases :=
  unfold converterStep, when, say, emit, assert, exit, ret, bind;
  repeat case_inner; simpl.

Section Step.

Variables Matrix4 SceneData : Type.
Variable w : World Matrix4 SceneData.
Variable args : Args.t.

Local Abbreviation step := (converterStep w args).
Local Abbreviation N := (converterCount args).
Local Abbreviation name := (converterName args).
Local Abbreviation writesFile := (writesFile w args).

Lemma step_hop i mesh e j :
  In e (trace (step i mesh)) -> hopOf e = Some j -> j = i.
Proof.
  step_cases; intros H E; simpl in H;
    repeat (destruct H as [<-|H]; [simpl in E; congruence|]); tauto.
Qed.

Lemma step_load i mesh j n :
  In (ConverterLoadAndInstantiate j n) (trace (step i mesh)) <->
  j = i /\ n = name i.
Proof. step_cases; intuition congruence. Qed.

Lemma step_toFile i mesh j m f :
  In (ConverterConvertToFile j m f) (trace (step i mesh)) <->
  j = i /\ m = mesh /\ f = Args.output args /\ writesFile i.
Proof.
  unfold writesFile.
  step_cases; bools; (split;
    [ intros Hin; simpl in Hin;
      repeat (destruct Hin as [Hin|Hin]; try discriminate); try tauto;
      inversion Hin; subst; repeat split; try lia; eauto
    | intros (-> & -> & -> & Hn & c & Hc & Hf);
      first [ simpl; tauto
            | exfalso; rewrite Hc in *; 
              repeat match goal with
                     | H : Some _ = Some _ |- _ => inversion H; subst; clear H
                     end;
              try discriminate; intuition (try lia; try congruence) ] ]).
Qed.

Ltac same_converter :=
  repeat match goal with
  | H : writesFile _ |- _ => destruct H as (? & ? & ? & ?)
  | H : converterManager w ?n = Some _,
    H' : converterManager w ?n = None |- _ => congruence
  | H : converterManager w ?n = Some ?a,
    H' : converterManager w ?n = Some ?b |- _ =>
      first [ constr_eq a b; fail 1
            | rewrite H in H'; inversion H'; subst; clear H' ]
  | H : Some _ = Some _ |- _ => inversion H; subst; clear H
  | H : Some _ = None |- _ => discriminate H
  | H : None = Some _ |- _ => discriminate H
  end.

Lemma step_continue i mesh mesh' :
  result (step i mesh) = Value (Some mesh') ->
  i < N /\ ~ writesFile i /\
  exists converter, converterManager w (name i) = Some converter /\
    hasFeature (features converter) ConvertMesh = true /\
    convert converter (Args.verbose args) (converterOptions args i) mesh
    = Some mesh'.
Proof.
  step_cases; bools; intros E; try discriminate; inversion E; subst;
    (split; [assumption|]);
    (split; [intros W; same_converter; try lia; congruence|]);
    eexists; repeat split; eauto.
Qed.

Lemma step_written i mesh converter :
  converterManager w (name i) = Some converter ->
  writesFile i ->
  result (step i mesh) =
  if convertToFile converter (Args.verbose args) (converterOptions args i)
       mesh (Args.output args)
  then Value None else Return 5%Z.
Proof.
  intros Hc W. revert Hc.
  step_cases; bools; intros Hc; same_converter;
    try reflexivity; try discriminate; try lia; congruence.
Qed.

Lemma step_convert i mesh j m :
  In (ConverterConvert j m) (trace (step i mesh)) <->
  j = i /\ m = mesh /\ i < N /\ ~ writesFile i /\
  exists converter, converterManager w (name i) = Some converter /\
    hasFeature (features converter) ConvertMesh = true.
Proof.
  step_cases; bools; (split;
    [ intros Hin; simpl in Hin;
      repeat (destruct Hin as [Hin|Hin]; try discriminate); try tauto;
      inversion Hin; subst; repeat split; try lia; eauto;
      intros W; same_converter; try lia; congruence
    | intros (-> & -> & Hlt & Hw & c & Hc & Hf);
      first [ simpl; tauto
            | exfalso; same_converter;
              first [ lia | congruence | apply Hw; split; [lia|eauto] ] ] ]).
Qed.

Lemma step_setOptions i mesh j o :
  In (ConverterSetOptions j o) (trace (step i mesh)) <->
  j = i /\ (exists converter, converterManager w (name i) = Some converter)
  /\ converterOptions args i = Some o.
Proof.
  step_cases; (split;
    [ intros Hin; simpl in Hin;
      repeat (destruct Hin as [Hin|Hin]; try discriminate); try tauto;
      inversion Hin; subst; repeat split; eauto
    | intros (-> & (c & Hc) & Ho);
      first [ discriminate | inversion Ho; subst; simpl; tauto ] ]).
Qed.


Lemma step_last_assert mesh converter :
  converterManager w (name N) = Some converter ->
  hasFeature (features converter) ConvertMeshToFile = false ->
  result (step N mesh) = AssertionFailed "i < converterCount" /\
  forall e, In e (trace (step N mesh)) -> isConversion e = false.
Proof.
  intros Hc Hf. revert Hc.
  step_cases; bools; intros Hc; same_converter;
    try lia; try congruence;
    (split; [reflexivity|]);
    intros e Hin; simpl in Hin;
    repeat (destruct Hin as [<-|Hin]; [reflexivity|]); tauto.
Qed.

(** A requested converter that does not write the file and has
    [ConvertMesh] hands on what [convert()] returns, called on a plugin
    configured with the options of its position; a failed conversion ends
    the run with exit code 7. *)
Lemma step_converted i mesh converter :
  converterManager w (name i) = Some converter ->
  i < N -> ~ writesFile i ->
  hasFeature (features converter) ConvertMesh = true ->
  result (step i mesh) =
  match convert converter (Args.verbose args) (converterOptions args i) mesh
  with
  | Some mesh' => Value (Some mesh')
  | None => Return 7%Z
  end.
Proof.
  intros Hc Hlt Hw Hf. revert Hc.
  step_cases; bools; intros Hc; same_converter;
    try reflexivity; try discriminate; try lia; try congruence;
    exfalso; apply Hw; (split; [lia|eauto]).
Qed.

End Step.

(* ===================================================================== *)
(** ** The converter loop *)
(* ===================================================================== *)

Section Chain.

Variables Matrix4 SceneData : Type.
Variable w : World Matrix4 SceneData.
Variable args : Args.t.

Local Abbreviation step := (converterStep w args).
Local Abbreviation loop := (converterLoop w args).
Local Abbreviation N := (converterCount args).
Local Abbreviation name := (converterName args).
Local Abbreviation executes := (executes w args).
Local Abbreviation writesFile := (writesFile w args).

Lemma loop_S fuel i mesh :
  loop (S fuel) i mesh =
  if i <=? N then
    bind (step i mesh)
      (fun next => match next with
                   | None => ret tt
                   | Some mesh' => loop fuel (S i) mesh'
                   end)
  else ret tt.
Proof. reflexivity. Qed.

(** More fuel than the iterations left changes nothing. *)
Lemma loop_fuel fuel extra i mesh :
  S N <= fuel + i -> loop (fuel + extra) i mesh = loop fuel i mesh.
Proof.
  revert i mesh. induction fuel as [|fuel IH]; intros i mesh Hf.
  - simpl. destruct extra; [reflexivity|].
    rewrite loop_S. destruct (i <=? N) eqn:E; [|reflexivity].
    apply Nat.leb_le in E. lia.
  - change (S fuel + extra) with (S (fuel + extra)). rewrite !loop_S.
    destruct (i <=? N); [|reflexivity].
    apply bind_ext. intros [mesh'|]; [|reflexivity].
    apply IH. lia.
Qed.

Lemma executes_range fuel i mesh k meshk :
  executes fuel i mesh k meshk -> i <= k <= N.
Proof. induction 1; lia. Qed.

Lemma loop_event fuel i mesh e :
  In e (trace (loop fuel i mesh)) <->
  exists k meshk, executes fuel i mesh k meshk /\ In e (trace (step k meshk)).
Proof.
  revert i mesh. induction fuel as [|fuel IH]; intros i mesh.
  - simpl. split; [tauto|]. intros (k & meshk & Hx & _). inversion Hx.
  - rewrite loop_S. destruct (i <=? N) eqn:Hi.
    + apply Nat.leb_le in Hi. rewrite trace_bind, in_app_iff. split.
      * intros [Hin|Hin].
        -- exists i, mesh. split; [now constructor|assumption].
        -- destruct (result (step i mesh)) as [[mesh'|]| |] eqn:Hr;
             try contradiction.
           apply IH in Hin. destruct Hin as (k & meshk & Hx & Hin).
           exists k, meshk. split; [|assumption].
           eapply executes_later; eauto.
      * intros (k & meshk & Hx & Hin). inversion Hx; subst.
        -- now left.
        -- right.
           match goal with H : result _ = Value (Some _) |- _ => rewrite H end.
           apply IH. eauto.
    + apply Nat.leb_gt in Hi. simpl. split; [tauto|].
      intros (k & meshk & Hx & _). apply executes_range in Hx. lia.
Qed.

(** When an iteration that runs does not hand a mesh on, the loop ends
    the way that iteration ends. *)
Lemma executes_stop fuel i mesh k meshk :
  executes fuel i mesh k meshk ->
  (forall mesh', result (step k meshk) <> Value (Some mesh')) ->
  result (loop fuel i mesh) =
  match result (step k meshk) with
  | Value _ => Value tt
  | Return code => Return code
  | AssertionFailed e => AssertionFailed e
  end.
Proof.
  induction 1 as [fuel i mesh Hi|fuel i mesh mesh' k meshk Hi Hr Hx IH];
    intros Hstop; rewrite loop_S;
    apply Nat.leb_le in Hi; rewrite Hi, result_bind.
  - destruct (result (step i mesh)) as [[mesh'|]| |] eqn:Hr; try reflexivity.
    now destruct (Hstop mesh').
  - rewrite Hr. now apply IH.
Qed.

(** An iteration runs only after every earlier one has handed a mesh on. *)
Lemma executes_before fuel i mesh k meshk k' meshk' :
  executes fuel i mesh k meshk ->
  executes fuel i mesh k' meshk' ->
  k < k' ->
  exists mesh', result (step k meshk) = Value (Some mesh').
Proof.
  induction 1 as [fuel i mesh Hi|fuel i mesh mesh' k meshk Hi Hr Hx IH];
    intros Hx' Hlt; inversion Hx'; subst.
  - lia.
  - eauto.
  - apply executes_range in Hx. lia.
  - match goal with
    | H : result _ = Value (Some _) |- _ =>
        rewrite Hr in H; inversion H; subst
    end.
    now apply IH.
Qed.

(** The iteration [k] is reached exactly when its plugin is asked for. *)
Lemma loop_load fuel i mesh k n :
  In (ConverterLoadAndInstantiate k n) (trace (loop fuel i mesh)) <->
  (exists meshk, executes fuel i mesh k meshk) /\ n = name k.
Proof.
  rewrite loop_event. split.
  - intros (k' & meshk & Hx & Hin). apply step_load in Hin.
    destruct Hin as [-> ->]. eauto.
  - intros [(meshk & Hx) ->]. exists k, meshk. split; [assumption|].
    now apply step_load.
Qed.

Local Abbreviation chain := (converterChain w args).

Lemma chain_event mesh e :
  In e (trace (chain mesh)) <->
  exists k meshk, executes (S N) 0 mesh k meshk /\ In e (trace (step k meshk)).
Proof. apply loop_event. Qed.

Lemma chain_first_hop mesh : executes (S N) 0 mesh 0 mesh.
Proof. constructor. lia. Qed.

Lemma converterName_last : name N = "AnySceneConverter".
Proof. unfold converterName. now rewrite Nat.eqb_refl. Qed.

(** C1, as amended: the file is written by an iteration that is reached,
    is the last requested converter or the implicit [AnySceneConverter]
    ([converterCount <= i + 1]) and has [ConvertMeshToFile], and by no
    other; no iteration with [i + 1 < converterCount] writes; and once an
    iteration has called [convertToFile()], no later iteration runs. *)
Theorem file_written_by_last_or_default (mesh : MeshData) :
  let run := trace (chain mesh) in
  (forall i,
     (exists m f, In (ConverterConvertToFile i m f) run) <->
     In (ConverterLoadAndInstantiate i (name i)) run /\ writesFile i)
  /\ (forall i m f,
        In (ConverterConvertToFile i m f) run -> N <= i + 1 /\ i <= N)
  /\ (forall i m f,
        In (ConverterConvertToFile i m f) run ->
        forall e k, In e run -> hopOf e = Some k -> k <= i).
Proof.
  cbv zeta. split; [|split].
  - intros i. split.
    + intros (m & f & Hin). apply chain_event in Hin.
      destruct Hin as (k & meshk & Hx & Hin).
      apply step_toFile in Hin. destruct Hin as (-> & _ & _ & Hw).
      split; [|assumption]. apply loop_load. eauto.
    + intros [Hin Hw]. apply loop_load in Hin.
      destruct Hin as [(meshk & Hx) _].
      exists meshk, (Args.output args). apply chain_event.
      exists i, meshk. split; [assumption|]. now apply step_toFile.
  - intros i m f Hin. apply chain_event in Hin.
    destruct Hin as (k & meshk & Hx & Hin).
    apply step_toFile in Hin. destruct Hin as (-> & _ & _ & Hw & _).
    apply executes_range in Hx. lia.
  - intros i m f Hin e k He Hk. apply chain_event in Hin, He.
    destruct Hin as (i' & meshi & Hxi & Hin).
    destruct He as (k' & meshk & Hxk & He).
    apply step_toFile in Hin. destruct Hin as (Hi & _ & _ & Hw). subst i'.
    assert (k = k') by (eapply step_hop; eassumption). subst k'.
    destruct (Nat.le_gt_cases k i) as [|Hlt]; [assumption|].
    destruct (executes_before _ _ _ _ _ _ _ Hxi Hxk Hlt) as (mesh' & Hr).
    apply step_continue in Hr. tauto.
Qed.

(** C2, as amended: when the implicit last iteration is reached and
    [AnySceneConverter] has no [ConvertMeshToFile], the run dies on the
    assertion [i < converterCount]: no exit code is returned and no
    conversion is called on that plugin. *)
Theorem default_without_file_output_asserts
    (mesh : MeshData) (converter : AbstractSceneConverter) :
  In (ConverterLoadAndInstantiate N "AnySceneConverter") (trace (chain mesh)) ->
  converterManager w "AnySceneConverter" = Some converter ->
  hasFeature (features converter) ConvertMeshToFile = false ->
  termination (result (chain mesh)) = Aborted "i < converterCount" /\
  forall e, In e (trace (chain mesh)) -> hopOf e = Some N ->
            isConversion e = false.
Proof.
  intros Hin Hc Hf. rewrite <- converterName_last in Hc.
  apply loop_load in Hin. destruct Hin as [(meshN & Hx) _].
  destruct (step_last_assert _ _ w args meshN _ Hc Hf) as [Hr _].
  split.
  - unfold converterChain. rewrite (executes_stop _ _ _ _ _ Hx); rewrite Hr.
    + reflexivity.
    + discriminate.
  - intros e He Hk. apply chain_event in He.
    destruct He as (k & meshk & _ & He).
    assert (N = k) by (eapply step_hop; eassumption). subst k.
    now apply (step_last_assert _ _ w args meshk _ Hc Hf).
Qed.


(** The fuel [converterChain] gives the loop is all it can use. *)
Lemma chain_fuel mesh extra :
  loop (S N + extra) 0 mesh = chain mesh.
Proof. apply loop_fuel. lia. Qed.

(** [convert()] is only ever called on a requested converter that has
    [ConvertMesh] and is not the one that writes the file. *)
Lemma convert_needs_ConvertMesh mesh i m :
  In (ConverterConvert i m) (trace (chain mesh)) ->
  i < N /\ ~ writesFile i /\
  exists converter,
    converterManager w (name i) = Some converter /\
    hasFeature (features converter) ConvertMesh = true.
Proof.
  intros Hin. apply chain_event in Hin.
  destruct Hin as (k & meshk & _ & Hin).
  apply step_convert in Hin. destruct Hin as (Hik & _ & Hrest).
  now subst k.
Qed.

(** A chain in which [convertToFile()] was called ends normally when the
    call succeeded and with exit code 5 when it failed. *)
Lemma chain_after_file_write mesh i m f converter :
  In (ConverterConvertToFile i m f) (trace (chain mesh)) ->
  converterManager w (name i) = Some converter ->
  result (chain mesh) =
  if convertToFile converter (Args.verbose args) (converterOptions args i)
       m f
  then Value tt else Return 5%Z.
Proof.
  intros Hin Hc. apply chain_event in Hin.
  destruct Hin as (k & meshk & Hx & Hin).
  apply step_toFile in Hin. destruct Hin as (Hik & -> & -> & Hw). subst k.
  pose proof (step_written _ _ w args i meshk converter Hc Hw) as Hr.
  unfold converterChain. rewrite (executes_stop _ _ _ _ _ Hx); rewrite Hr.
  - now destruct (convertToFile _ _ _ _ _).
  - intros mesh'. now destruct (convertToFile _ _ _ _ _).
Qed.

(** Lines 505-506: the options an iteration gets are the value at its
    position in the [--converter-options] list, if the list is that long. *)
Lemma converterOptions_nth_error i :
  converterOptions args i = nth_error (Args.converter_options args) i.
Proof.
  unfold converterOptions.
  destruct (i <? length (Args.converter_options args)) eqn:E.
  - apply Nat.ltb_lt in E. symmetry. now apply nth_error_nth'.
  - apply Nat.ltb_ge in E. symmetry. now apply nth_error_None.
Qed.

(** An iteration that hands a mesh on is followed by the next one. *)
Lemma executes_next fuel i mesh k meshk mesh' :
  executes fuel i mesh k meshk ->
  S N <= fuel + i ->
  result (step k meshk) = Value (Some mesh') ->
  executes fuel i mesh (S k) mesh'.
Proof.
  induction 1 as [fuel i mesh Hi|fuel i mesh mesh1 k meshk Hi Hr Hx IH];
    intros Hfuel Hstep.
  - pose proof (step_continue _ _ w args i mesh _ Hstep) as [Hlt _].
    destruct fuel as [|fuel]; [lia|].
    eapply executes_later; [assumption|eassumption|].
    constructor. lia.
  - eapply executes_later; [assumption|eassumption|].
    apply IH; [lia|assumption].
Qed.

(** C9: the converter options are applied by position.  The first
    iteration always loads its plugin.  An iteration [i] that is reached
    and whose plugin loads has exactly the [i]-th [--converter-options]
    value set on it, if there is one, and the plugin so configured is the
    one called: an iteration that writes the file calls
    [convertToFile()] with that value and the run ends on its outcome; one
    that converts in memory calls [convert()] with it, and the next
    iteration is reached when that succeeds and the run ends with exit code
    7 when it fails.  Options are set on no iteration past the implicit
    [AnySceneConverter] one at [i = converterCount], so values past that
    index are never used. *)
Theorem converter_options_by_position (mesh : MeshData) :
  let run := trace (chain mesh) in
  let options := Args.converter_options args in
  In (ConverterLoadAndInstantiate 0 (name 0)) run
  /\ (forall i converter,
        In (ConverterLoadAndInstantiate i (name i)) run ->
        converterManager w (name i) = Some converter ->
        (forall o, In (ConverterSetOptions i o) run <->
                   nth_error options i = Some o)
        /\ (writesFile i ->
            exists meshi,
              In (ConverterConvertToFile i meshi (Args.output args)) run /\
              result (chain mesh) =
              if convertToFile converter (Args.verbose args)
                   (nth_error options i) meshi (Args.output args)
              then Value tt else Return 5%Z)
        /\ (~ writesFile i -> i < N ->
            hasFeature (features converter) ConvertMesh = true ->
            exists meshi,
              In (ConverterConvert i meshi) run /\
              match convert converter (Args.verbose args)
                      (nth_error options i) meshi with
              | Some _ =>
                  In (ConverterLoadAndInstantiate (S i) (name (S i))) run
              | None => result (chain mesh) = Return 7%Z
              end))
  /\ (forall i o, In (ConverterSetOptions i o) run ->
        i <= N /\ nth_error options i = Some o).
Proof.
  cbv zeta. split; [|split].
  - apply loop_load. split; [|reflexivity].
    exists mesh. apply chain_first_hop.
  - intros i converter Hin Hc. apply loop_load in Hin.
    destruct Hin as [(meshi & Hx) _].
    rewrite <- converterOptions_nth_error. split; [|split].
    + intros o. rewrite chain_event. split.
      * intros (k & meshk & _ & Hs). apply step_setOptions in Hs.
        destruct Hs as (Hik & _ & Ho). now subst k.
      * intros Ho. exists i, meshi. split; [assumption|].
        apply step_setOptions. eauto.
    + intros Hw. exists meshi.
      assert (Hfile : In (ConverterConvertToFile i meshi (Args.output args))
                         (trace (chain mesh))).
      { apply chain_event. exists i, meshi. split; [assumption|].
        apply step_toFile. auto. }
      split; [assumption|].
      now apply chain_after_file_write.
    + intros Hw Hlt Hf. exists meshi. split.
      * apply chain_event. exists i, meshi. split; [assumption|].
        apply step_convert. eauto 8.
      * pose proof (step_converted _ _ w args i meshi converter
                      Hc Hlt Hw Hf) as Hr.
        destruct (convert converter (Args.verbose args)
                    (converterOptions args i) meshi) as [mesh'|].
        -- apply loop_load. split; [|reflexivity].
           exists mesh'. apply executes_next with (meshk := meshi);
             [assumption|lia|assumption].
        -- unfold converterChain.
           rewrite (executes_stop _ _ _ _ _ Hx); rewrite Hr;
             [reflexivity|discriminate].
  - intros i o Hin. apply chain_event in Hin.
    destruct Hin as (k & meshk & Hx & Hs). apply step_setOptions in Hs.
    destruct Hs as (-> & _ & Ho). apply executes_range in Hx.
    split; [lia|]. now rewrite <- converterOptions_nth_error.
Qed.

End Chain.


(* ===================================================================== *)
(** ** The stages before the converter loop *)
(* ===================================================================== *)

Ltac run_cases :=
  unfold when, say, emit, assert, exit, ret, bind;
  repeat case_inner; simpl.

Ltac each_event :=
  let e := fresh "e" in
  let Hin := fresh "Hin" in
  intros e Hin; simpl in Hin;
  repeat (destruct Hin as [<-|Hin]; [reflexivity|]); try contradiction.

Section Stages.

Variables Matrix4 SceneData : Type.
Variable w : World Matrix4 SceneData.
Variable args : Args.t.

(** A property of all events of [m ;; f] follows from the same for [m]
    and for [f] where [m] hands a value on. *)
Lemma bind_events A B (P : Event -> Prop) (m : Run A) (f : A -> Run B) :
  (forall e, In e (trace m) -> P e) ->
  (forall a, result m = Value a -> forall e, In e (trace (f a)) -> P e) ->
  forall e, In e (trace (bind m f)) -> P e.
Proof.
  intros Hm Hf e. rewrite trace_bind, in_app_iff. intros [Hin|Hin].
  - now apply Hm.
  - destruct (result m) as [a| |] eqn:Hr; try contradiction.
    now apply (Hf a).
Qed.

Lemma main_preparation :
  main w args =
  bind (preparation w args)
    (fun mesh => bind (converterChain w args mesh)
       (fun _ => when (Args.profile args) (say Debug_ImportAndConversionTook))).
Proof.
  unfold main, preparation.
  repeat (rewrite bind_assoc; apply bind_ext; intros ?).
  reflexivity.
Qed.

Lemma importMeshes_no_hop (importer : AbstractImporter SceneData) ids e :
  In e (trace (importMeshes importer ids)) -> hopOf e = None.
Proof.
  revert e. induction ids as [|i ids IH]; [each_event|].
  cbn [importMeshes]. apply bind_events; [each_event|]. intros _ _.
  destruct (importerMesh importer i 0); [|run_cases; each_event].
  apply bind_events; [assumption|]. intros ? ?; each_event.
Qed.

Lemma flattenedMeshes_no_hop meshes hierarchy e :
  In e (trace (flattenedMeshes w meshes hierarchy)) -> hopOf e = None.
Proof.
  revert e. induction hierarchy as [|[[meshId objectId] transformation] rest IH];
    [each_event|].
  cbn [flattenedMeshes]. destruct (nth_error meshes meshId); [|each_event].
  apply bind_events; [each_event|]. intros _ _.
  apply bind_events; [assumption|]. intros ? ?; each_event.
Qed.

Lemma attributeDatas_trace mesh only : trace (attributeDatas mesh only) = [].
Proof.
  induction only as [|i only IH]; [reflexivity|].
  cbn [attributeDatas]. destruct (nth_error (attributes mesh) i);
    [|reflexivity].
  rewrite trace_bind, IH.
  destruct (result (attributeDatas mesh only)); reflexivity.
Qed.

Lemma inputMesh_no_hop (importer : AbstractImporter SceneData) e :
  In e (trace (inputMesh w args importer)) -> hopOf e = None.
Proof.
  revert e. unfold inputMesh.
  destruct (Args.concatenate_meshes args).
  - apply bind_events; [apply importMeshes_no_hop|]. intros meshes _.
    apply bind_events.
    + unfold flattenStage. destruct (negb _); [|each_event].
      apply bind_events; [each_event|]. intros _ _.
      destruct (scene importer _); [|run_cases; each_event].
      apply bind_events; [each_event|]. intros _ _ e.
      apply flattenedMeshes_no_hop.
    + intros meshes' _. apply bind_events; [each_event|]. intros _ _.
      destruct (MeshTools.concatenate meshes'); each_event.
  - run_cases; each_event.
Qed.

Lemma filterAttributes_trace mesh : trace (filterAttributes w args mesh) = [].
Proof.
  unfold filterAttributes. destruct (negb _); [|reflexivity].
  destruct (parseNumberSequence w _ _ _); [|reflexivity].
  rewrite trace_bind, attributeDatas_trace.
  destruct (result (attributeDatas mesh l)); reflexivity.
Qed.

(** Nothing before the converter loop touches a converter. *)
Lemma preparation_no_hop e :
  In e (trace (preparation w args)) -> hopOf e = None.
Proof.
  revert e. unfold preparation.
  apply bind_events; [unfold genericChecks; run_cases; each_event|].
  intros _ _.
  apply bind_events; [unfold loadImporter; run_cases; each_event|].
  intros importer _.
  apply bind_events; [unfold openInput; run_cases; each_event|].
  intros _ _.
  apply bind_events; [unfold info; run_cases; each_event|].
  intros _ _.
  apply bind_events; [unfold checkMeshCount; run_cases; each_event|].
  intros _ _.
  apply bind_events; [apply inputMesh_no_hop|]. intros mesh _.
  apply bind_events; [rewrite filterAttributes_trace; each_event|].
  intros mesh1 _.
  apply bind_events; [unfold removeDuplicatesStage; run_cases; each_event|].
  intros mesh2 _.
  unfold removeDuplicatesFuzzyStage; run_cases; each_event.
Qed.


Lemma genericChecks_result : result (genericChecks args) = Value tt.
Proof. unfold genericChecks. run_cases; reflexivity. Qed.

Lemma loadImporter_result importer :
  importerManager w (Args.importer args) = Some importer ->
  result (loadImporter w args) = Value importer.
Proof. intros H. unfold loadImporter. rewrite H. run_cases; reflexivity. Qed.

Lemma openInput_result importer :
  opens w args importer = true ->
  result (openInput w args importer) = Value tt.
Proof.
  unfold opens, openInput. run_cases; intros H; congruence.
Qed.

Lemma info_requested importer :
  isInfoRequested args = true ->
  result (info w args importer) =
    Return (if printInfo w args importer then 1 else 0)%Z /\
  In PrintInfo (trace (info w args importer)).
Proof.
  intros H. unfold info. rewrite H. run_cases; (split; [reflexivity|]);
    simpl; tauto.
Qed.

Lemma info_not_requested importer :
  isInfoRequested args = false -> info w args importer = ret tt.
Proof. intros H. unfold info. now rewrite H. Qed.

(** With an info option, every event of the run comes from before the
    mesh-count check. *)
Lemma info_run_events :
  isInfoRequested args = true ->
  forall e, In e (trace (main w args)) -> beforeMeshCountCheck e = true.
Proof.
  intros Hinfo. unfold main.
  apply bind_events; [unfold genericChecks; run_cases; each_event|].
  intros _ _.
  apply bind_events; [unfold loadImporter; run_cases; each_event|].
  intros importer _.
  apply bind_events; [unfold openInput; run_cases; each_event|].
  intros _ _.
  apply bind_events; [unfold info; run_cases; each_event|].
  intros a Hr. destruct (info_requested importer Hinfo) as [Hr' _].
  rewrite Hr' in Hr. discriminate.
Qed.

(** With an info option, a loaded importer and an input that opens, the
    run prints the info and returns its error flag. *)
Lemma info_run_result importer :
  importerManager w (Args.importer args) = Some importer ->
  opens w args importer = true ->
  isInfoRequested args = true ->
  result (main w args) =
    Return (if printInfo w args importer then 1 else 0)%Z /\
  In PrintInfo (trace (main w args)).
Proof.
  intros Himp Hopen Hinfo. unfold main.
  destruct (info_requested importer Hinfo) as [Hr Hin]. split.
  - rewrite result_bind, genericChecks_result.
    rewrite result_bind, (loadImporter_result importer Himp).
    rewrite result_bind, (openInput_result importer Hopen).
    rewrite result_bind, Hr. reflexivity.
  - rewrite trace_bind, genericChecks_result. apply in_or_app. right.
    rewrite trace_bind, (loadImporter_result importer Himp).
    apply in_or_app. right.
    rewrite trace_bind, (openInput_result importer Hopen).
    apply in_or_app. right.
    rewrite trace_bind. apply in_or_app. now left.
Qed.

(** Without an info option, an input with no mesh ends the run at the
    mesh-count check. *)
Lemma no_meshes_run importer :
  importerManager w (Args.importer args) = Some importer ->
  opens w args importer = true ->
  isInfoRequested args = false ->
  meshCount importer = 0 ->
  result (main w args) = Return 1%Z /\
  In (Print (Error_NoMeshesFound (Args.input args))) (trace (main w args)).
Proof.
  intros Himp Hopen Hinfo Hcount. unfold main.
  assert (Hcheck : checkMeshCount args importer =
                   ([Print (Error_NoMeshesFound (Args.input args))],
                    Return 1%Z)).
  { unfold checkMeshCount. rewrite Hcount. reflexivity. }
  split.
  - rewrite result_bind, genericChecks_result.
    rewrite result_bind, (loadImporter_result importer Himp).
    rewrite result_bind, (openInput_result importer Hopen).
    rewrite (info_not_requested importer Hinfo).
    rewrite result_bind. cbn [ret result snd].
    rewrite result_bind, Hcheck. reflexivity.
  - rewrite trace_bind, genericChecks_result. apply in_or_app. right.
    rewrite trace_bind, (loadImporter_result importer Himp).
    apply in_or_app. right.
    rewrite trace_bind, (openInput_result importer Hopen).
    apply in_or_app. right.
    rewrite (info_not_requested importer Hinfo).
    rewrite trace_bind. cbn [ret result snd]. apply in_or_app. right.
    rewrite trace_bind, Hcheck. apply in_or_app. left. simpl. tauto.
Qed.

Lemma importMeshes_all (importer : AbstractImporter SceneData) ids meshes :
  map (fun i => importerMesh importer i 0) ids = map Some meshes ->
  importMeshes importer ids = (map (fun i => ImporterMesh i 0) ids, Value meshes).
Proof.
  revert meshes. induction ids as [|i ids IH]; intros [|m meshes] H;
    try discriminate; [reflexivity|].
  simpl in H. injection H as Hm Hrest.
  cbn [importMeshes map]. rewrite Hm, (IH meshes Hrest). simpl.
  now rewrite app_nil_r.
Qed.

Lemma attributeDatas_selected mesh only :
  Forall (fun i => i < attributeCount mesh) only ->
  exists selected,
    attributeDatas mesh only = ([], Value selected) /\
    map Some selected = map (nth_error (attributes mesh)) only.
Proof.
  induction 1 as [|i only Hi _ (selected & Hrun & Hsel)].
  - exists []. split; reflexivity.
  - destruct (nth_error (attributes mesh) i) as [attribute|] eqn:Hn.
    + exists (attribute :: selected). cbn [attributeDatas map].
      rewrite Hn, Hrun, Hsel. split; reflexivity.
    + apply nth_error_None in Hn. unfold attributeCount in Hi. lia.
Qed.

End Stages.

(* ===================================================================== *)
(** ** Mesh concatenation *)
(* ===================================================================== *)

Lemma concatenateIndices_segment meshes :
  forall offset k m j x,
  nth_error meshes k = Some m ->
  nth_error (MeshTools.implicitIndices m) j = Some x ->
  nth_error (MeshTools.concatenateIndices offset meshes)
            (MeshTools.indexTotal (firstn k meshes) + j)
  = Some (x + (offset + MeshTools.vertexTotal (firstn k meshes))).
Proof.
  induction meshes as [|m0 rest IH]; intros offset k m j x Hk Hj.
  - destruct k; discriminate.
  - destruct k as [|k].
    + injection Hk as ->.
      assert (Hlt : j < length (MeshTools.implicitIndices m))
        by (apply nth_error_Some; congruence).
      cbn. rewrite nth_error_app1 by (now rewrite length_map).
      rewrite nth_error_map, Hj. cbn. now rewrite Nat.add_0_r.
    + cbn in Hk. cbn [firstn MeshTools.concatenateIndices].
      unfold MeshTools.indexTotal, MeshTools.vertexTotal in *.
      cbn [map list_sum fold_right].
      fold (list_sum (map (fun m1 => length (MeshTools.implicitIndices m1))
                          (firstn k rest))).
      fold (list_sum (map vertexCount (firstn k rest))).
      rewrite nth_error_app2 by (rewrite length_map; lia).
      rewrite length_map.
      replace (length (MeshTools.implicitIndices m0) +
               list_sum (map (fun m1 => length (MeshTools.implicitIndices m1))
                             (firstn k rest)) + j
               - length (MeshTools.implicitIndices m0))
        with (list_sum (map (fun m1 => length (MeshTools.implicitIndices m1))
                            (firstn k rest)) + j) by lia.
      rewrite (IH _ _ _ _ _ Hk Hj). apply f_equal. lia.
Qed.

(** C7: in the index buffer of a concatenation, the piece that comes from
    input [k] holds that input's indices (or [0 .. vertexCount-1] when it
    has none), each raised by the vertex counts of the inputs before it. *)
Theorem concatenated_index_offset
    (meshes : list MeshData) (merged : MeshData) (k : nat) (m : MeshData)
    (j x : nat) :
  MeshTools.concatenate meshes = Some merged ->
  existsb isIndexed meshes = true ->
  nth_error meshes k = Some m ->
  nth_error (MeshTools.implicitIndices m) j = Some x ->
  exists ix,
    indices merged = Some ix /\
    nth_error ix (MeshTools.indexTotal (firstn k meshes) + j)
    = Some (x + MeshTools.vertexTotal (firstn k meshes)).
Proof.
  intros Hc Hix Hk Hj. unfold MeshTools.concatenate in Hc.
  destruct meshes as [|first rest]; [discriminate|].
  rewrite Hix in Hc. destruct (_ && _); [|discriminate].
  injection Hc as <-. cbn [indices].
  eexists. split; [reflexivity|].
  exact (concatenateIndices_segment _ 0 _ _ _ _ Hk Hj).
Qed.

Lemma concatenated_index_offset_witness :
  exists ix,
    indices Example.merged = Some ix /\
    nth_error ix
      (MeshTools.indexTotal (firstn 1 [Example.triangle; Example.quad]) + 4)
    = Some (4 + MeshTools.vertexTotal
                  (firstn 1 [Example.triangle; Example.quad])).
Proof.
  apply (concatenated_index_offset [Example.triangle; Example.quad]
           Example.merged 1 Example.quad 4 4); reflexivity.
Defined.

(* ===================================================================== *)
(** ** The stages of [main()] *)
(* ===================================================================== *)

(** C4: with [--concatenate-meshes] and no default scene, the meshes are
    taken as imported, in order, and concatenated: the scene is not asked
    for, nothing is flattened or transformed, and the stage hands on the
    concatenated mesh. *)
Theorem concatenation_without_default_scene
    (Matrix4 SceneData : Type) (w : World Matrix4 SceneData) (args : Args.t)
    (importer : AbstractImporter SceneData)
    (meshes : list MeshData) (merged : MeshData) :
  Args.concatenate_meshes args = true ->
  defaultScene importer = (-1)%Z ->
  map (fun i => importerMesh importer i 0) (seq 0 (meshCount importer))
    = map Some meshes ->
  MeshTools.concatenate meshes = Some merged ->
  inputMesh w args importer =
    (map (fun i => ImporterMesh i 0) (seq 0 (meshCount importer))
       ++ [Concatenate (length meshes)],
     Value merged).
Proof.
  intros Hcat Hscene Himport Hmerged. unfold inputMesh, flattenStage.
  rewrite Hcat, Hscene, (importMeshes_all _ importer _ _ Himport).
  change (-1 =? -1)%Z with true. unfold bind, emit, ret.
  cbv beta iota delta [negb]. rewrite Hmerged.
  reflexivity.
Qed.

Lemma concatenation_without_default_scene_witness :
  inputMesh (Example.world [Example.triangle; Example.quad] Example.toFile)
    (Example.arguments "chair.ply" [] [] "" true false)
    (Example.importerOf [Example.triangle; Example.quad])
  = ([ImporterMesh 0 0; ImporterMesh 1 0; Concatenate 2],
     Value Example.merged).
Proof.
  apply (concatenation_without_default_scene unit unit
           (Example.world [Example.triangle; Example.quad] Example.toFile)
           (Example.arguments "chair.ply" [] [] "" true false)
           (Example.importerOf [Example.triangle; Example.quad])
           [Example.triangle; Example.quad] Example.merged);
    reflexivity.
Defined.

Lemma attributeDatas_no_return mesh only code :
  result (attributeDatas mesh only) <> Return code.
Proof.
  induction only as [|i only IH]; [discriminate|].
  cbn [attributeDatas]. destruct (nth_error (attributes mesh) i);
    [|discriminate].
  rewrite result_bind.
  destruct (result (attributeDatas mesh only)) eqn:E;
    [cbn; discriminate|exact IH|discriminate].
Qed.

(** C6: with the ordinals the parser hands back all below the attribute
    count, the filtered mesh has exactly the attributes of these ordinals,
    in the order given, and the same primitive, indices, vertex storage
    and vertex count. *)
Theorem attribute_filter_keeps_order
    (Matrix4 SceneData : Type) (w : World Matrix4 SceneData) (args : Args.t)
    (mesh : MeshData) (only : list nat) :
  isEmpty (Args.only_attributes args) = false ->
  parseNumberSequence w (Args.only_attributes args) 0 (attributeCount mesh)
    = Some only ->
  Forall (fun i => i < attributeCount mesh) only ->
  exists filtered,
    filterAttributes w args mesh = ([], Value filtered) /\
    map Some (attributes filtered) = map (nth_error (attributes mesh)) only /\
    primitive filtered = primitive mesh /\
    indices filtered = indices mesh /\
    vertexData filtered = vertexData mesh /\
    vertexCount filtered = vertexCount mesh.
Proof.
  intros Hset Hparse Hrange.
  destruct (attributeDatas_selected mesh only Hrange) as (selected & Hrun & Hsel).
  eexists. unfold filterAttributes. rewrite Hset, Hparse, Hrun. cbn.
  repeat split; try reflexivity. exact Hsel.
Qed.

Lemma attribute_filter_keeps_order_witness :
  exists filtered,
    filterAttributes (Example.world [Example.triangle] Example.toFile)
      (Example.arguments "chair.ply" [] [] "2,0" false false)
      Example.triangle = ([], Value filtered) /\
    map Some (attributes filtered)
      = map (nth_error (attributes Example.triangle)) [2; 0] /\
    primitive filtered = primitive Example.triangle /\
    indices filtered = indices Example.triangle /\
    vertexData filtered = vertexData Example.triangle /\
    vertexCount filtered = vertexCount Example.triangle.
Proof.
  apply (attribute_filter_keeps_order unit unit
           (Example.world [Example.triangle] Example.toFile)
           (Example.arguments "chair.ply" [] [] "2,0" false false)
           Example.triangle [2; 0]).
  - reflexivity.
  - reflexivity.
  - repeat constructor.
Defined.

(** C5, as amended: the filter fails, with exit code 2, exactly when the
    number-sequence parser called with the bounds 0 and [attributeCount]
    hands back nothing; [main()] checks no range itself, and with ordinals
    handed back that are all below the attribute count the filter goes on
    with exactly these. *)
Theorem attribute_filter_fails_iff_parser_rejects
    (Matrix4 SceneData : Type) (w : World Matrix4 SceneData) (args : Args.t)
    (mesh : MeshData) :
  isEmpty (Args.only_attributes args) = false ->
  let parsed :=
    parseNumberSequence w (Args.only_attributes args) 0 (attributeCount mesh)
  in
  (parsed = None -> filterAttributes w args mesh = ([], Return 2%Z))
  /\ ((exists code, result (filterAttributes w args mesh) = Return code)
      <-> parsed = None)
  /\ (forall only,
        parsed = Some only ->
        Forall (fun i => i < attributeCount mesh) only ->
        exists filtered,
          filterAttributes w args mesh = ([], Value filtered) /\
          map Some (attributes filtered)
            = map (nth_error (attributes mesh)) only).
Proof.
  intros Hset parsed. subst parsed. unfold filterAttributes. rewrite Hset.
  cbn [negb]. split; [|split].
  - intros ->. reflexivity.
  - destruct (parseNumberSequence w _ _ _) as [only|].
    + split; [|discriminate]. intros (code & Hr). exfalso.
      rewrite result_bind in Hr.
      destruct (result (attributeDatas mesh only)) eqn:Hd;
        try discriminate.
      now apply (attributeDatas_no_return mesh only code0).
    + split; [reflexivity|]. intros _. now exists 2%Z.
  - intros only -> Hrange.
    destruct (attributeDatas_selected mesh only Hrange)
      as (selected & Hrun & Hsel).
    eexists. rewrite Hrun. cbn. split; [reflexivity|exact Hsel].
Qed.

Lemma attribute_filter_fails_iff_parser_rejects_witness :
  let w := Example.world [Example.triangle] Example.toFile in
  let args := Example.arguments "chair.ply" [] [] "0,x" false false in
  filterAttributes w args Example.triangle = ([], Return 2%Z).
Proof.
  intros w args.
  apply (attribute_filter_fails_iff_parser_rejects unit unit w args
           Example.triangle); reflexivity.
Defined.

(** C5 as the specification states it fails: of the selection [0,5] on a
    mesh with three attributes, ordinal 5 is dropped and the filter goes on
    with attribute 0 alone. *)
Lemma out_of_range_ordinal_dropped :
  ~ outOfRangeRejected (Example.world [Example.triangle] Example.toFile)
      (Example.arguments "chair.ply" [] [] "0,5" false false)
      Example.triangle [0; 5].
Proof.
  intros H. destruct H as (code & Hcode).
  - exists 5. split; [simpl; tauto|]. cbv. lia.
  - discriminate Hcode.
Qed.

(* ===================================================================== *)
(** ** Whole runs *)
(* ===================================================================== *)

Lemma beforeMeshCountCheck_no_hop e :
  beforeMeshCountCheck e = true -> hopOf e = None /\ isConversion e = false.
Proof. destruct e; simpl; try discriminate; auto. Qed.




(** C8: an output file given together with an info option is no error.
    The run starts with the warning that names the file, no conversion is
    called and no converter is touched; with the importer loaded and the
    input open the info is printed and the exit code is the error flag of
    the printing alone, 0 when it reports none. *)
Theorem info_with_output_warns_and_goes_on
    (Matrix4 SceneData : Type) (w : World Matrix4 SceneData) (args : Args.t) :
  isEmpty (Args.output args) = false ->
  isInfoRequested args = true ->
  (exists rest,
     trace (main w args) =
     Print (Warning_IgnoringOutputFile (Args.output args)) :: rest)
  /\ (forall e, In e (trace (main w args)) ->
        hopOf e = None /\ isConversion e = false)
  /\ (forall importer,
        importerManager w (Args.importer args) = Some importer ->
        opens w args importer = true ->
        In PrintInfo (trace (main w args)) /\
        result (main w args) =
          Return (if printInfo w args importer then 1 else 0)%Z /\
        (printInfo w args importer = false ->
         termination (result (main w args)) = Exited 0)).
Proof.
  intros Hout Hinfo. split; [|split].
  - unfold main. rewrite trace_bind. unfold genericChecks.
    rewrite Hout, Hinfo. cbn. eauto.
  - intros e He. apply beforeMeshCountCheck_no_hop.
    now apply (info_run_events _ _ w args Hinfo).
  - intros importer Himp Hopen.
    destruct (info_run_result _ _ w args importer Himp Hopen Hinfo)
      as [Hr Hin].
    repeat split; try assumption.
    intros Hok. rewrite Hr, Hok. reflexivity.
Qed.

Lemma info_with_output_warns_and_goes_on_witness :
  let w := Example.world [Example.triangle; Example.quad] Example.toFile in
  let args := Example.arguments "chair.ply" [] [] "" false true in
  (exists rest,
     trace (main w args) =
     Print (Warning_IgnoringOutputFile "chair.ply") :: rest)
  /\ (forall e, In e (trace (main w args)) ->
        hopOf e = None /\ isConversion e = false)
  /\ (forall importer,
        importerManager w (Args.importer args) = Some importer ->
        opens w args importer = true ->
        In PrintInfo (trace (main w args)) /\
        result (main w args) =
          Return (if printInfo w args importer then 1 else 0)%Z /\
        (printInfo w args importer = false ->
         termination (result (main w args)) = Exited 0)).
Proof.
  intros w args.
  apply (info_with_output_warns_and_goes_on unit unit w args); reflexivity.
Defined.

(** C10: with an info option the run returns right after the info is
    printed: every event comes from before the mesh-count check, so no
    mesh is imported, no stage runs and no converter is loaded.  An input
    without meshes then exits with 0, and without an info option the same
    input exits with 1 after the "no meshes" error. *)
Theorem info_returns_before_mesh_count_check
    (Matrix4 SceneData : Type) (w : World Matrix4 SceneData) (args : Args.t)
    (importer : AbstractImporter SceneData) :
  importerManager w (Args.importer args) = Some importer ->
  opens w args importer = true ->
  (isInfoRequested args = true ->
     result (main w args) =
       Return (if printInfo w args importer then 1 else 0)%Z /\
     In PrintInfo (trace (main w args)) /\
     forall e, In e (trace (main w args)) -> beforeMeshCountCheck e = true)
  /\
  (meshCount importer = 0 ->
     (isInfoRequested args = true -> printInfo w args importer = false ->
        termination (result (main w args)) = Exited 0) /\
     (isInfoRequested args = false ->
        termination (result (main w args)) = Exited 1 /\
        In (Print (Error_NoMeshesFound (Args.input args)))
           (trace (main w args)))).
Proof.
  intros Himp Hopen. split; [|intros Hcount; split].
  - intros Hinfo.
    destruct (info_run_result _ _ w args importer Himp Hopen Hinfo)
      as [Hr Hin].
    repeat split; try assumption.
    now apply info_run_events.
  - intros Hinfo Hok.
    destruct (info_run_result _ _ w args importer Himp Hopen Hinfo)
      as [Hr _].
    rewrite Hr, Hok. reflexivity.
  - intros Hinfo.
    destruct (no_meshes_run _ _ w args importer Himp Hopen Hinfo Hcount)
      as [Hr Hin].
    rewrite Hr. split; [reflexivity|assumption].
Qed.

Lemma info_returns_before_mesh_count_check_witness :
  let w := Example.world [] Example.toFile in
  termination
    (result (main w (Example.arguments "" [] [] "" false true))) = Exited 0
  /\
  termination
    (result (main w (Example.arguments "chair.ply" [] [] "" false false)))
    = Exited 1.
Proof.
  intros w. split.
  - apply (info_returns_before_mesh_count_check unit unit w
             (Example.arguments "" [] [] "" false true)
             (Example.importerOf [])); reflexivity.
  - apply (info_returns_before_mesh_count_check unit unit w
             (Example.arguments "chair.ply" [] [] "" false false)
             (Example.importerOf [])); reflexivity.
Defined.

(* ===================================================================== *)
(** ** Where the specification and the converter loop part *)
(* ===================================================================== *)

(** C1 as the specification states it fails: a single requested converter
    with [ConvertMeshToFile] writes the file at iteration 0, before the
    implicit [AnySceneConverter] at iteration 1 is ever loaded. *)
Lemma last_requested_converter_writes :
  ~ onlyDefaultHopWrites (Example.world [Example.triangle] Example.toFile)
      (Example.arguments "chair.ply" ["StanfordSceneConverter"] [] ""
         false false)
      Example.triangle.
Proof.
  intros H.
  specialize (H 0 Example.triangle "chair.ply"). cbv in H.
  assert (E : 0 = 1) by (apply H; tauto). discriminate E.
Qed.

(** C2 as the specification states it fails: an [AnySceneConverter] with
    [ConvertMesh] only, reached as the last iteration, ends the run on the
    assertion and not with exit code 6. *)
Lemma default_without_file_output_not_reported :
  ~ defaultHopMismatchReported
      (Example.world [Example.triangle] Example.inMemory)
      (Example.arguments "chair.ply" [] [] "" false false)
      Example.triangle.
Proof.
  intros H. specialize (H Example.inMemory). cbv in H.
  assert (E : @AssertionFailed unit "i < converterCount" = Return 6%Z)
    by (apply H; tauto).
  discriminate E.
Qed.

Lemma converter_options_by_position_witness :
  let binaryOnly :=
    {| features := [ConvertMeshToFile];
       convert := fun _ _ _ => None;
       convertToFile := fun _ options _ _ =>
         match options with
         | Some value => String.eqb value "binary=false"
         | None => false
         end |} in
  let w := Example.world [Example.triangle] binaryOnly in
  let args :=
    Example.arguments "chair.ply" ["MeshOptimizerSceneConverter"]
      ["simplify=true"; "binary=false"; "unused"] "" false false in
  let run := trace (converterChain w args Example.triangle) in
  In (ConverterSetOptions 0 "simplify=true") run /\
  In (ConverterSetOptions 1 "binary=false") run /\
  (forall i o, In (ConverterSetOptions i o) run -> o <> "unused") /\
  result (converterChain w args Example.triangle) = Value tt.
Proof.
  intros binaryOnly w args run.
  destruct (converter_options_by_position unit unit w args Example.triangle)
    as (Hfirst & Hposition & Hlast).
  destruct (Hposition 0 Example.inMemory Hfirst eq_refl)
    as (Hoptions0 & _ & Hconvert).
  destruct Hconvert as (mesh0 & _ & Hsecond).
  { intros (_ & converter & Hc & Hf). cbv in Hc.
    injection Hc as <-. discriminate Hf. }
  { cbv. lia. }
  { reflexivity. }
  cbn in Hsecond.
  destruct (Hposition 1 binaryOnly Hsecond eq_refl)
    as (Hoptions1 & Hfile & _).
  destruct Hfile as (mesh1 & _ & Hresult).
  { split; [cbv; lia|]. exists binaryOnly. split; reflexivity. }
  split; [apply Hoptions0; reflexivity|].
  split; [apply Hoptions1; reflexivity|].
  split; [|exact Hresult].
  intros i o Hin. apply Hlast in Hin. destruct Hin as [Hi Ho].
  change (converterCount args) with 1 in Hi.
  assert (i = 0 \/ i = 1) as [-> | ->] by lia;
    cbv in Ho; injection Ho as <-; discriminate.
Defined.

Lemma default_without_file_output_asserts_witness :
  let w := Example.world [Example.triangle] Example.featureless in
  let args :=
    Example.arguments "chair.ply" ["MeshOptimizerSceneConverter"] [] ""
      false false in
  termination (result (converterChain w args Example.triangle))
    = Aborted "i < converterCount" /\
  forall e, In e (trace (converterChain w args Example.triangle)) ->
            hopOf e = Some (converterCount args) -> isConversion e = false.
Proof.
  intros w args.
  apply (default_without_file_output_asserts unit unit w args
           Example.triangle Example.featureless).
  - cbv. tauto.
  - reflexivity.
  - reflexivity.
Defined.

(* ===================================================================== *)
(** ** Concrete runs *)
(* ===================================================================== *)

(** Two requested converters of which only the second can write a file:
    one [convert()] on the first, then one [convertToFile()] on the
    second, and [AnySceneConverter] is not loaded. *)
Example chain_of_two_writes_with_second :
  converterChain (Example.world [Example.triangle] Example.toFile)
    (Example.arguments "chair.ply"
       ["MeshOptimizerSceneConverter"; "StanfordSceneConverter"] [] ""
       false false)
    Example.triangle
  = ([ConverterLoadAndInstantiate 0 "MeshOptimizerSceneConverter";
      ConverterConvert 0 Example.triangle;
      ConverterLoadAndInstantiate 1 "StanfordSceneConverter";
      ConverterConvertToFile 1 Example.triangle "chair.ply"],
     Value tt).
Proof. reflexivity. Qed.

(** A single requested converter without file output: the implicit
    [AnySceneConverter] saves what it produced, and of three
    [--converter-options] values the first two are set, by position. *)
Example default_converter_saves_and_gets_second_options :
  converterChain (Example.world [Example.triangle] Example.toFile)
    (Example.arguments "chair.ply" ["MeshOptimizerSceneConverter"]
       ["simplify=true"; "binary=false"; "unused"] "" false false)
    Example.triangle
  = ([ConverterLoadAndInstantiate 0 "MeshOptimizerSceneConverter";
      ConverterSetOptions 0 "simplify=true";
      ConverterConvert 0 Example.triangle;
      ConverterLoadAndInstantiate 1 "AnySceneConverter";
      ConverterSetOptions 1 "binary=false";
      ConverterConvertToFile 1 Example.triangle "chair.ply"],
     Value tt).
Proof. reflexivity. Qed.

(** [--concatenate-meshes] on a file with two meshes and no default scene:
    the whole run ends with exit code 0 after saving the merged mesh. *)
Example concatenation_without_scene_run :
  main (Example.world [Example.triangle; Example.quad] Example.toFile)
    (Example.arguments "chair.ply" [] [] "" true false)
  = ([ImporterLoadAndInstantiate "AnySceneImporter";
      ImporterSetOptions "";
      ImporterOpenFile "chair.obj";
      ImporterMesh 0 0; ImporterMesh 1 0;
      Concatenate 2;
      ConverterLoadAndInstantiate 0 "AnySceneConverter";
      ConverterConvertToFile 0 Example.merged "chair.ply"],
     Value tt).
Proof. reflexivity. Qed.

(** The parser instance on the examples of Corrade's documentation. *)
Example parseNumberSequence_examples :
  Corrade.parseNumberSequence "4,3 5;5;17" 0 100
    = Some [4; 3; 5; 5; 17]%N /\
  Corrade.parseNumberSequence "12-,3-5,1" 0 15
    = Some [12; 13; 14; 3; 4; 5; 1]%N /\
  Corrade.parseNumberSequence "-3, 13-" 0 15
    = Some [0; 1; 2; 3; 13; 14]%N /\
  Corrade.parseNumberSequence "4,3 5;5;17" 0 0 = Some [] /\
  Corrade.parseNumberSequence "4,x" 0 100 = None.
Proof. repeat split; reflexivity. Qed.

(* ===================================================================== *)
(** ** More on one iteration of the converter loop *)
(* ===================================================================== *)

Section StepOutcomes.

Variables Matrix4 SceneData : Type.
Variable w : World Matrix4 SceneData.
Variable args : Args.t.

Local Abbreviation step := (converterStep w args).
Local Abbreviation N := (converterCount args).
Local Abbreviation name := (converterName args).
Local Abbreviation writesFile := (writesFile w args).

Ltac same_converter :=
  repeat match goal with
  | H : writesFile _ |- _ => destruct H as (? & ? & ? & ?)
  | H : converterManager w ?n = Some _,
    H' : converterManager w ?n = None |- _ => congruence
  | H : converterManager w ?n = Some ?a,
    H' : converterManager w ?n = Some ?b |- _ =>
      first [ constr_eq a b; fail 1
            | rewrite H in H'; inversion H'; subst; clear H' ]
  | H : Some _ = Some _ |- _ => inversion H; subst; clear H
  | H : Some _ = None |- _ => discriminate H
  | H : None = Some _ |- _ => discriminate H
  end.

Lemma step_loaded i mesh :
  loadedConverters (trace (step i mesh)) = [(i, name i)].
Proof. step_cases; reflexivity. Qed.

Lemma step_input i mesh e j m :
  In e (trace (step i mesh)) -> conversionInput e = Some (j, m) ->
  j = i /\ m = mesh.
Proof.
  step_cases; intros Hin E; simpl in Hin;
    repeat (destruct Hin as [<-|Hin];
            [simpl in E; try discriminate; inversion E; tauto|]);
    contradiction.
Qed.

(** An iteration either makes the one [convertToFile()] call of line 516
    and ends the loop, or makes none and does not [break]. *)
Lemma step_fileWrites i mesh :
  (exists converter,
     converterManager w (name i) = Some converter /\ writesFile i /\
     fileWrites (trace (step i mesh)) =
       [ConverterConvertToFile i mesh (Args.output args)] /\
     result (step i mesh) =
       if convertToFile converter (Args.verbose args)
            (converterOptions args i) mesh (Args.output args)
       then Value None else Return 5%Z)
  \/ (fileWrites (trace (step i mesh)) = [] /\
      result (step i mesh) <> Value None /\ ~ writesFile i).
Proof.
  step_cases; bools;
    first
      [ left; eexists; split; [reflexivity|];
        split; [split; [lia|eauto]|]; split; [reflexivity|];
        match goal with
        | H : convertToFile _ _ _ _ _ = _ |- _ => rewrite H
        end; reflexivity
      | right; split; [reflexivity|]; split; [discriminate|];
        intros W; same_converter; try lia; congruence ].
Qed.

Lemma step_unavailable i mesh :
  converterManager w (name i) = None ->
  step i mesh =
  ([ConverterLoadAndInstantiate i (name i);
    Print (Debug_AvailableConverterPlugins (converterAliasList w))],
   Return 2%Z).
Proof. intros H. unfold converterStep. rewrite H. reflexivity. Qed.

Lemma step_convert_failed i mesh converter :
  converterManager w (name i) = Some converter ->
  In (ConverterConvert i mesh) (trace (step i mesh)) ->
  convert converter (Args.verbose args) (converterOptions args i) mesh = None ->
  result (step i mesh) = Return 7%Z /\
  In (Print (Error_CannotConvertTheMesh (name i))) (trace (step i mesh)).
Proof.
  intros Hc. revert Hc.
  step_cases; bools; intros Hc Hin Hconv; same_converter;
    simpl in Hin;
    repeat (destruct Hin as [Hin|Hin]; try discriminate);
    try contradiction; try congruence;
    (split; [reflexivity|simpl; tauto]).
Qed.

Lemma step_progress i mesh n count converterName :
  (In (Print (Debug_Processing n count converterName)) (trace (step i mesh)) ->
   Args.verbose args = true /\ 1 < N /\ count = N /\ n = i + 1 /\ i < N /\
   converterName = name i) /\
  (In (Print (Debug_SavingOutput n count converterName)) (trace (step i mesh)) ->
   Args.verbose args = true /\ 1 < N /\ count = N /\ n = i + 1 /\
   N <= i + 1 /\ converterName = name i).
Proof.
  step_cases; bools; (split; intros Hin; simpl in Hin;
    repeat (destruct Hin as [Hin|Hin]; try discriminate);
    try contradiction; inversion Hin; subst; repeat split; lia || reflexivity).
Qed.

Lemma step_explained i mesh code :
  result (step i mesh) = Return code -> explained args code (trace (step i mesh)).
Proof.
  step_cases; intros E; try discriminate; inversion E; subst;
    first [ eapply explained_converter; simpl; eauto 7
          | eapply explained_save; simpl; tauto
          | eapply explained_mismatch; simpl; eauto 7
          | eapply explained_convert; simpl; eauto 7 ].
Qed.

End StepOutcomes.

(* ===================================================================== *)
(** ** More on the converter loop *)
(* ===================================================================== *)

Lemma filter_nothing A (f : A -> bool) (l : list A) :
  (forall x, In x l -> f x = false) -> filter f l = [].
Proof.
  induction l as [|x l IH]; intros H; [reflexivity|].
  cbn. rewrite (H x) by now left. apply IH. intros y Hy. apply H. now right.
Qed.

Lemma explained_after args code pre t :
  explained args code t -> explained args code (pre ++ t).
Proof.
  intros H; inversion H; subst;
    try (econstructor; try eassumption; apply in_or_app; right;
         eassumption; fail).
Qed.

Section ChainOutcomes.

Variables Matrix4 SceneData : Type.
Variable w : World Matrix4 SceneData.
Variable args : Args.t.

Local Abbreviation step := (converterStep w args).
Local Abbreviation loop := (converterLoop w args).
Local Abbreviation chain := (converterChain w args).
Local Abbreviation N := (converterCount args).
Local Abbreviation name := (converterName args).
Local Abbreviation executes := (executes w args).
Local Abbreviation writesFile := (writesFile w args).

Lemma executes_start fuel i mesh meshi :
  executes fuel i mesh i meshi -> meshi = mesh.
Proof.
  inversion 1; subst; [reflexivity|].
  match goal with
  | H : executes _ (S _) _ _ _ |- _ =>
      apply executes_range in H; lia
  end.
Qed.

(** The mesh an iteration runs with is determined by the run. *)
Lemma executes_functional fuel i mesh k m1 m2 :
  executes fuel i mesh k m1 -> executes fuel i mesh k m2 -> m1 = m2.
Proof.
  induction 1 as [fuel i mesh Hi|fuel i mesh mesh' k meshk Hi Hr Hx IH];
    intros Hx'.
  - symmetry. eapply executes_start. eassumption.
  - inversion Hx'; subst.
    + apply executes_range in Hx. lia.
    + match goal with
      | H : result _ = Value (Some _) |- _ =>
          rewrite Hr in H; inversion H; subst
      end.
      now apply IH.
Qed.

(** An iteration past the first runs on what the one before it
    converted. *)
Lemma executes_pred fuel i mesh k meshk :
  executes fuel i mesh (S k) meshk -> i <= k ->
  exists m, executes fuel i mesh k m /\
            result (step k m) = Value (Some meshk).
Proof.
  remember (S k) as k' eqn:Ek.
  induction 1 as [fuel i mesh Hi|fuel i mesh mesh' k' meshk Hi Hr Hx IH];
    intros Hle; subst.
  - lia.
  - destruct (Nat.eq_dec i k) as [->|Hne].
    + apply executes_start in Hx. subst meshk.
      exists mesh. split; [now constructor|assumption].
    + destruct IH as (m & Hm & Hrm); [reflexivity|lia|].
      exists m. split; [|assumption]. eapply executes_later; eauto.
Qed.

Lemma loop_fileWrites fuel i mesh :
  S N <= fuel + i -> i <= N ->
  (exists k meshk converter,
     executes fuel i mesh k meshk /\
     converterManager w (name k) = Some converter /\ writesFile k /\
     fileWrites (trace (loop fuel i mesh)) =
       [ConverterConvertToFile k meshk (Args.output args)] /\
     result (loop fuel i mesh) =
       if convertToFile converter (Args.verbose args)
            (converterOptions args k) meshk (Args.output args)
       then Value tt else Return 5%Z)
  \/ (fileWrites (trace (loop fuel i mesh)) = [] /\
      forall u, result (loop fuel i mesh) <> Value u).
Proof.
  revert i mesh. induction fuel as [|fuel IH]; intros i mesh Hf Hi; [lia|].
  rewrite loop_S. pose proof Hi as Hi'. apply Nat.leb_le in Hi'. rewrite Hi'.
  rewrite trace_bind, result_bind. unfold fileWrites in *.
  destruct (step_fileWrites _ _ w args i mesh)
    as [(c & Hc & Hw & Hfw & Hr)|(Hfw & Hnb & Hnw)].
  - left. exists i, mesh, c.
    split; [now constructor|]. split; [assumption|]. split; [assumption|].
    unfold fileWrites in Hfw. rewrite filter_app, Hfw, Hr.
    destruct (convertToFile _ _ _ _ _); split; reflexivity.
  - unfold fileWrites in Hfw. rewrite filter_app, Hfw.
    destruct (result (step i mesh)) as [[mesh'|]|code|e] eqn:Hr.
    + destruct (step_continue _ _ w args i mesh _ Hr) as (Hlt & _).
      destruct (IH (S i) mesh') as
        [(k & meshk & c & Hx & Hc & Hw & Hfw' & Hr')|(Hfw' & Hr')];
        [lia|lia| |].
      * left. exists k, meshk, c.
        split; [eapply executes_later; eauto|].
        split; [assumption|]. split; [assumption|]. split; assumption.
      * right. split; assumption.
    + now destruct Hnb.
    + right. split; [reflexivity|discriminate].
    + right. split; [reflexivity|discriminate].
Qed.

(** The converters are loaded one after the other from index 0 on, each
    under the name of its index. *)
Lemma loop_loaded fuel i mesh :
  exists n,
    loadedConverters (trace (loop fuel i mesh)) =
      map (fun j => (j, name j)) (seq i n) /\
    (n = 0 \/ i + n <= S N) /\
    (0 < fuel -> i <= N -> 0 < n).
Proof.
  revert i mesh. induction fuel as [|fuel IH]; intros i mesh.
  - exists 0. split; [reflexivity|]. split; [now left|]. lia.
  - rewrite loop_S. destruct (i <=? N) eqn:Hi.
    + apply Nat.leb_le in Hi. rewrite trace_bind.
      unfold loadedConverters in *. rewrite flat_map_app.
      fold (loadedConverters (trace (step i mesh))).
      rewrite step_loaded.
      destruct (result (step i mesh)) as [[mesh'|]|code|e] eqn:Hr;
        try (exists 1; split; [reflexivity|]; split; [right; lia|lia]).
      destruct (IH (S i) mesh') as (n & Hl & Hn & _).
      destruct (step_continue _ _ w args i mesh _ Hr) as (Hlt & _).
      exists (S n). rewrite Hl. split; [reflexivity|]. split; lia.
    + apply Nat.leb_gt in Hi. exists 0.
      split; [reflexivity|]. split; [now left|]. lia.
Qed.

Lemma loop_explained fuel i mesh code :
  result (loop fuel i mesh) = Return code ->
  explained args code (trace (loop fuel i mesh)).
Proof.
  revert i mesh. induction fuel as [|fuel IH]; intros i mesh;
    [discriminate|].
  rewrite loop_S. destruct (i <=? N); [|discriminate].
  rewrite trace_bind, result_bind.
  destruct (result (step i mesh)) as [[mesh'|]|code'|e] eqn:Hr;
    try discriminate.
  - intros H. apply explained_after. now apply IH.
  - intros H. injection H as ->. rewrite app_nil_r.
    now apply step_explained.
Qed.

End ChainOutcomes.

Section ChainExtras.

Variables Matrix4 SceneData : Type.
Variable w : World Matrix4 SceneData.
Variable args : Args.t.

Local Abbreviation step := (converterStep w args).
Local Abbreviation chain := (converterChain w args).
Local Abbreviation N := (converterCount args).
Local Abbreviation name := (converterName args).
Local Abbreviation executes := (executes w args).

(** No iteration runs after one that did not hand a mesh on. *)
Lemma nothing_after_stop mesh i meshi :
  executes (S N) 0 mesh i meshi ->
  (forall mesh', result (step i meshi) <> Value (Some mesh')) ->
  forall e k, In e (trace (chain mesh)) -> hopOf e = Some k -> k <= i.
Proof.
  intros Hx Hstop e k He Hk. apply chain_event in He.
  destruct He as (k' & meshk & Hxk & He).
  assert (k = k') by (eapply step_hop; eassumption). subst k'.
  destruct (Nat.le_gt_cases k i) as [|Hlt]; [assumption|].
  destruct (executes_before _ _ w args _ _ _ _ _ _ _ Hx Hxk Hlt)
    as (mesh' & Hr).
  now destruct (Hstop mesh').
Qed.

(** The conversion call of the first iteration gets the mesh the loop
    was entered with. *)
Lemma chain_first_input mesh e m :
  In e (trace (chain mesh)) -> conversionInput e = Some (0, m) -> m = mesh.
Proof.
  intros He Hin. apply chain_event in He.
  destruct He as (k & meshk & Hx & He).
  destruct (step_input _ _ w args _ _ _ _ _ He Hin) as [<- ->].
  eapply executes_start. eassumption.
Qed.

(** X5: the mesh is piped from one converter to the next.  The first
    conversion call gets the mesh the loop was entered with; a converter
    past the first is loaded only after the one before it, which has
    [ConvertMesh], returned a mesh from [convert()], and every conversion
    call on it gets exactly that mesh. *)
Theorem mesh_piped_through_converters (mesh : MeshData) :
  let run := trace (chain mesh) in
  (forall e m, In e run -> conversionInput e = Some (0, m) -> m = mesh)
  /\
  (forall i n,
     In (ConverterLoadAndInstantiate (S i) n) run ->
     exists m m' converter,
       In (ConverterConvert i m) run /\
       converterManager w (name i) = Some converter /\
       hasFeature (features converter) ConvertMesh = true /\
       convert converter (Args.verbose args) (converterOptions args i) m
         = Some m' /\
       forall e x, In e run -> conversionInput e = Some (S i, x) -> x = m').
Proof.
  cbv zeta. split.
  - intros e m. apply chain_first_input.
  - intros i n Hload. apply loop_load in Hload.
    destruct Hload as [(meshS & HxS) _].
    destruct (executes_pred _ _ w args _ _ _ _ _ HxS) as (m & Hx & Hr);
      [lia|].
    destruct (step_continue _ _ w args i m _ Hr)
      as (Hlt & Hnw & c & Hc & Hf & Hconv).
    exists m, meshS, c. repeat split; try assumption.
    + apply chain_event. exists i, m. split; [assumption|].
      apply step_convert. repeat split; eauto.
    + intros e x He Hin. apply chain_event in He.
      destruct He as (k & meshk & Hxk & He).
      destruct (step_input _ _ w args _ _ _ _ _ He Hin) as [<- ->].
      eapply executes_functional; eassumption.
Qed.

(** X8: a converter plugin that cannot be loaded ends the run with exit
    code 2 after the list of known plugins; nothing is converted with it
    and no later converter is touched. *)
Theorem converter_plugin_unavailable (mesh : MeshData) (i : nat) :
  In (ConverterLoadAndInstantiate i (name i)) (trace (chain mesh)) ->
  converterManager w (name i) = None ->
  result (chain mesh) = Return 2%Z /\
  In (Print (Debug_AvailableConverterPlugins (converterAliasList w)))
     (trace (chain mesh)) /\
  (forall e k, In e (trace (chain mesh)) -> hopOf e = Some k -> k <= i) /\
  (forall e, In e (trace (chain mesh)) -> hopOf e = Some i ->
             isConversion e = false).
Proof.
  intros Hload Hnone. apply loop_load in Hload.
  destruct Hload as [(meshi & Hx) _].
  pose proof (step_unavailable _ _ w args i meshi Hnone) as Hstep.
  assert (Hr : result (step i meshi) = Return 2%Z) by now rewrite Hstep.
  assert (Hstop : forall mesh', result (step i meshi) <> Value (Some mesh'))
    by (intros mesh'; rewrite Hr; discriminate).
  split; [|split; [|split]].
  - unfold converterChain. rewrite (executes_stop _ _ w args _ _ _ _ _ Hx Hstop).
    now rewrite Hr.
  - apply chain_event. exists i, meshi. split; [assumption|].
    rewrite Hstep. simpl. tauto.
  - now apply (nothing_after_stop mesh i meshi).
  - intros e He Hk. apply chain_event in He.
    destruct He as (k & meshk & _ & He).
    assert (i = k) by (eapply step_hop; eassumption). subst k.
    rewrite (step_unavailable _ _ w args i meshk Hnone) in He.
    simpl in He. destruct He as [<-|[<-|[]]]; reflexivity.
Qed.

(** X9: a [convert()] call that returns nothing ends the run with exit
    code 7 after the error that names the converter; no later converter
    is touched. *)
Theorem conversion_failure_stops_chain
    (mesh : MeshData) (i : nat) (m : MeshData)
    (converter : AbstractSceneConverter) :
  In (ConverterConvert i m) (trace (chain mesh)) ->
  converterManager w (name i) = Some converter ->
  convert converter (Args.verbose args) (converterOptions args i) m = None ->
  result (chain mesh) = Return 7%Z /\
  In (Print (Error_CannotConvertTheMesh (name i))) (trace (chain mesh)) /\
  (forall e k, In e (trace (chain mesh)) -> hopOf e = Some k -> k <= i).
Proof.
  intros Hin Hc Hconv. apply chain_event in Hin.
  destruct Hin as (k & meshk & Hx & Hin).
  pose proof Hin as Hin'. apply step_convert in Hin'.
  destruct Hin' as (-> & -> & _).
  destruct (step_convert_failed _ _ w args k meshk converter Hc Hin Hconv)
    as [Hr Hd].
  assert (Hstop : forall mesh', result (step k meshk) <> Value (Some mesh'))
    by (intros mesh'; rewrite Hr; discriminate).
  split; [|split].
  - unfold converterChain. rewrite (executes_stop _ _ w args _ _ _ _ _ Hx Hstop).
    now rewrite Hr.
  - apply chain_event. eauto.
  - now apply (nothing_after_stop mesh k meshk).
Qed.

(** X10: the progress messages of lines 513 and 528 are printed only with
    [--verbose] and at least two requested converters.  They count from 1
    out of the number of requested converters, so the implicit
    [AnySceneConverter] saves as number [converterCount + 1]. *)
Theorem progress_messages_need_two_converters
    (mesh : MeshData) (n count : nat) (converterName : string) :
  (In (Print (Debug_Processing n count converterName)) (trace (chain mesh)) ->
   Args.verbose args = true /\ 1 < N /\ count = N /\ 1 <= n <= N /\
   converterName = name (n - 1))
  /\
  (In (Print (Debug_SavingOutput n count converterName)) (trace (chain mesh)) ->
   Args.verbose args = true /\ 1 < N /\ count = N /\ N <= n <= N + 1 /\
   converterName = name (n - 1)).
Proof.
  split; intros Hin; apply chain_event in Hin;
    destruct Hin as (k & meshk & Hx & Hin); apply executes_range in Hx.
  - apply (proj1 (step_progress _ _ w args k meshk n count converterName)) in Hin.
    destruct Hin as (Hv & HN & -> & -> & Hk & ->).
    replace (k + 1 - 1) with k by lia. repeat split; try assumption; lia.
  - apply (proj2 (step_progress _ _ w args k meshk n count converterName)) in Hin.
    destruct Hin as (Hv & HN & -> & -> & Hk & ->).
    replace (k + 1 - 1) with k by lia. repeat split; try assumption; lia.
Qed.

End ChainExtras.

Section ChainAssertion.

Variables Matrix4 SceneData : Type.
Variable w : World Matrix4 SceneData.
Variable args : Args.t.

Local Abbreviation step := (converterStep w args).
Local Abbreviation loop := (converterLoop w args).
Local Abbreviation chain := (converterChain w args).
Local Abbreviation N := (converterCount args).
Local Abbreviation name := (converterName args).
Local Abbreviation executes := (executes w args).

Lemma step_asserts i mesh e :
  result (step i mesh) = AssertionFailed e ->
  e = "i < converterCount" /\ N <= i /\
  exists converter,
    converterManager w (name i) = Some converter /\
    hasFeature (features converter) ConvertMeshToFile = false.
Proof.
  step_cases; bools; intros E; try discriminate; inversion E; subst;
    (split; [reflexivity|]); (split; [assumption|]);
    eexists; (split; [reflexivity|]); assumption || lia.
Qed.

Lemma loop_asserts fuel i mesh e :
  result (loop fuel i mesh) = AssertionFailed e ->
  exists k meshk,
    executes fuel i mesh k meshk /\
    result (step k meshk) = AssertionFailed e.
Proof.
  revert i mesh. induction fuel as [|fuel IH]; intros i mesh;
    [discriminate|].
  rewrite loop_S. destruct (i <=? N) eqn:Hi; [|discriminate].
  apply Nat.leb_le in Hi. rewrite result_bind.
  destruct (result (step i mesh)) as [[mesh'|]|code|e'] eqn:Hr;
    try discriminate.
  - intros H. destruct (IH _ _ H) as (k & meshk & Hx & Hk).
    exists k, meshk. split; [|assumption]. eapply executes_later; eauto.
  - intros H. injection H as ->. exists i, mesh.
    split; [now constructor|assumption].
Qed.

(** X15: the converter loop dies on an assertion only in the implicit last
    iteration, on [i < converterCount], and only when the
    [AnySceneConverter] it has loaded lacks [ConvertMeshToFile]. *)
Theorem loop_asserts_only_without_file_output (mesh : MeshData) (e : string) :
  result (chain mesh) = AssertionFailed e ->
  e = "i < converterCount" /\
  In (ConverterLoadAndInstantiate N "AnySceneConverter") (trace (chain mesh)) /\
  exists converter,
    converterManager w "AnySceneConverter" = Some converter /\
    hasFeature (features converter) ConvertMeshToFile = false.
Proof.
  intros H. apply loop_asserts in H. destruct H as (k & meshk & Hx & Hr).
  apply step_asserts in Hr. destruct Hr as (-> & Hk & c & Hc & Hf).
  pose proof (executes_range _ _ w args _ _ _ _ _ Hx) as Hrange.
  assert (k = N) by lia. subst k.
  rewrite (converterName_last args) in Hc.
  split; [reflexivity|]. split; [|eauto].
  rewrite <- (converterName_last args). apply loop_load. eauto.
Qed.

End ChainAssertion.

(* ===================================================================== *)
(** ** More on whole runs *)
(* ===================================================================== *)

Lemma flat_map_nothing A B (f : A -> list B) (l : list A) :
  (forall x, In x l -> f x = []) -> flat_map f l = [].
Proof.
  induction l as [|x l IH]; intros H; [reflexivity|].
  cbn. rewrite (H x) by now left. apply IH. intros y Hy. apply H. now right.
Qed.

Lemma explained_range args code t :
  explained args code t -> (0 <= code <= 7)%Z.
Proof. inversion 1; lia. Qed.

Section MainExtras.

Variables Matrix4 SceneData : Type.
Variable w : World Matrix4 SceneData.
Variable args : Args.t.

Local Abbreviation chain := (converterChain w args).
Local Abbreviation N := (converterCount args).
Local Abbreviation name := (converterName args).

Local Abbreviation tabled := (tabled args).

Lemma tabled_bind A B (m : Run A) (f : A -> Run B) :
  tabled m -> (forall a, result m = Value a -> tabled (f a)) ->
  tabled (bind m f).
Proof.
  intros Hm Hf code. rewrite trace_bind, result_bind.
  destruct (result m) as [a|code'|e] eqn:Hr; try discriminate.
  - intros H. apply explained_after. now apply (Hf a).
  - intros H. injection H as ->. rewrite app_nil_r. now apply Hm.
Qed.

Lemma main_result :
  result (main w args) =
  match result (preparation w args) with
  | Value mesh =>
      match result (chain mesh) with
      | Value _ => Value tt
      | Return code => Return code
      | AssertionFailed e => AssertionFailed e
      end
  | Return code => Return code
  | AssertionFailed e => AssertionFailed e
  end.
Proof.
  rewrite main_preparation, result_bind.
  destruct (result (preparation w args)); try reflexivity.
  rewrite result_bind. destruct (result (chain a)); try reflexivity.
  unfold when. now destruct (Args.profile args).
Qed.

Lemma main_trace :
  trace (main w args) =
  trace (preparation w args) ++
  match result (preparation w args) with
  | Value mesh =>
      trace (chain mesh) ++
      match result (chain mesh) with
      | Value _ =>
          trace (when (Args.profile args) (say Debug_ImportAndConversionTook))
      | _ => []
      end
  | _ => []
  end.
Proof.
  rewrite main_preparation, trace_bind.
  destruct (result (preparation w args)); try reflexivity.
  now rewrite trace_bind.
Qed.

Lemma profile_no_hop e :
  In e (trace (when (Args.profile args) (say Debug_ImportAndConversionTook))) ->
  hopOf e = None.
Proof. revert e. run_cases; each_event. Qed.

Lemma main_fileWrites :
  fileWrites (trace (main w args)) =
  match result (preparation w args) with
  | Value mesh => fileWrites (trace (chain mesh))
  | _ => []
  end.
Proof.
  assert (Hnone : forall t, (forall e, In e t -> hopOf e = None) ->
                            fileWrites t = []).
  { intros t H. apply filter_nothing. intros e He.
    specialize (H e He). now destruct e. }
  rewrite main_trace. unfold fileWrites at 1. rewrite filter_app.
  fold (fileWrites (trace (preparation w args))).
  rewrite (Hnone _ (preparation_no_hop _ _ w args)).
  destruct (result (preparation w args)); try reflexivity.
  rewrite filter_app. fold (fileWrites (trace (chain a))).
  destruct (result (chain a)); cbn [app]; rewrite ?app_nil_r; try reflexivity.
  match goal with
  | |- _ ++ filter _ ?t = _ => fold (fileWrites t)
  end.
  rewrite (Hnone _ profile_no_hop). apply app_nil_r.
Qed.

Lemma main_loadedConverters :
  loadedConverters (trace (main w args)) =
  match result (preparation w args) with
  | Value mesh => loadedConverters (trace (chain mesh))
  | _ => []
  end.
Proof.
  assert (Hnone : forall t, (forall e, In e t -> hopOf e = None) ->
                            loadedConverters t = []).
  { intros t H. apply flat_map_nothing. intros e He.
    specialize (H e He). now destruct e. }
  rewrite main_trace. unfold loadedConverters at 1. rewrite flat_map_app.
  fold (loadedConverters (trace (preparation w args))).
  rewrite (Hnone _ (preparation_no_hop _ _ w args)).
  destruct (result (preparation w args)); try reflexivity.
  rewrite flat_map_app. fold (loadedConverters (trace (chain a))).
  destruct (result (chain a)); cbn [app flat_map]; rewrite ?app_nil_r;
    try reflexivity.
  match goal with
  | |- _ ++ flat_map _ ?t = _ => fold (loadedConverters t)
  end.
  rewrite (Hnone _ profile_no_hop). apply app_nil_r.
Qed.

Lemma chain_fileWrites mesh :
  (exists k meshk converter,
     converterManager w (name k) = Some converter /\
     fileWrites (trace (chain mesh)) =
       [ConverterConvertToFile k meshk (Args.output args)] /\
     result (chain mesh) =
       if convertToFile converter (Args.verbose args)
            (converterOptions args k) meshk (Args.output args)
       then Value tt else Return 5%Z)
  \/ (fileWrites (trace (chain mesh)) = [] /\
      forall u, result (chain mesh) <> Value u).
Proof.
  destruct (loop_fileWrites _ _ w args (S N) 0 mesh)
    as [(k & meshk & c & _ & Hc & _ & Hf & Hr)|H]; try lia.
  - left. exists k, meshk, c. auto.
  - now right.
Qed.

(** X3: whatever the run, [convertToFile()] is called at most once. *)
Theorem at_most_one_file_write :
  length (fileWrites (trace (main w args))) <= 1.
Proof.
  rewrite main_fileWrites.
  destruct (result (preparation w args)) as [mesh| |];
    [|cbn; lia|cbn; lia].
  destruct (chain_fileWrites mesh) as [(k & meshk & c & _ & Hf & _)|[Hf _]];
    rewrite Hf; cbn; lia.
Qed.

End MainExtras.

Section MainOutcomes.

Variables Matrix4 SceneData : Type.
Variable w : World Matrix4 SceneData.
Variable args : Args.t.

Local Abbreviation chain := (converterChain w args).
Local Abbreviation N := (converterCount args).
Local Abbreviation name := (converterName args).
Local Abbreviation tabled := (tabled args).

Lemma importMeshes_tabled (importer : AbstractImporter SceneData) ids :
  tabled (importMeshes importer ids).
Proof.
  induction ids as [|i ids IH]; [discriminate|].
  cbn [importMeshes]. apply tabled_bind; [discriminate|]. intros _ _.
  destruct (importerMesh importer i 0).
  - apply tabled_bind; [assumption|]. discriminate.
  - intros code H. cbn in H. injection H as <-.
    eapply explained_mesh. cbn. eauto.
Qed.

Lemma flattenedMeshes_tabled meshes hierarchy :
  tabled (flattenedMeshes w meshes hierarchy).
Proof.
  induction hierarchy as [|[[meshId objectId] transformation] rest IH];
    [discriminate|].
  cbn [flattenedMeshes]. destruct (nth_error meshes meshId); [|discriminate].
  apply tabled_bind; [discriminate|]. intros _ _.
  apply tabled_bind; [assumption|]. discriminate.
Qed.

Lemma inputMesh_tabled (importer : AbstractImporter SceneData) :
  tabled (inputMesh w args importer).
Proof.
  unfold inputMesh. destruct (Args.concatenate_meshes args) eqn:Hcat.
  - apply tabled_bind; [apply importMeshes_tabled|]. intros meshes _.
    apply tabled_bind.
    + unfold flattenStage. destruct (negb _); [|discriminate].
      apply tabled_bind; [discriminate|]. intros _ _.
      destruct (scene importer _).
      * apply tabled_bind; [discriminate|]. intros _ _.
        apply flattenedMeshes_tabled.
      * intros code H. cbn in H. injection H as <-.
        eapply explained_scene. cbn. eauto.
    + intros meshes' _. apply tabled_bind; [discriminate|]. intros _ _.
      destruct (MeshTools.concatenate meshes'); discriminate.
  - apply tabled_bind; [discriminate|]. intros _ _.
    destruct (importerMesh importer _ _); [discriminate|].
    intros code H. cbn in H. injection H as <-.
    apply explained_the_mesh; [assumption|]. cbn. tauto.
Qed.

Lemma filterAttributes_tabled mesh : tabled (filterAttributes w args mesh).
Proof.
  unfold filterAttributes.
  destruct (isEmpty (Args.only_attributes args)) eqn:Hset;
    cbn [negb]; [discriminate|].
  destruct (parseNumberSequence w _ _ _) as [only|].
  - intros code H. rewrite result_bind in H.
    destruct (result (attributeDatas mesh only)) eqn:Hd; try discriminate.
    now destruct (attributeDatas_no_return mesh only code0).
  - intros code H. cbn in H. injection H as <-.
    now apply explained_attributes.
Qed.

Lemma preparation_tabled : tabled (preparation w args).
Proof.
  unfold preparation.
  apply tabled_bind;
    [unfold genericChecks; run_cases; discriminate|]. intros _ _.
  apply tabled_bind.
  { unfold loadImporter. apply tabled_bind; [discriminate|]. intros _ _.
    destruct (importerManager w _).
    - run_cases; discriminate.
    - intros code H. cbn in H. injection H as <-.
      eapply explained_importer. cbn. eauto. }
  intros importer _.
  apply tabled_bind.
  { unfold openInput. destruct (Args.map args) eqn:Hmap.
    - apply tabled_bind; [discriminate|]. intros _ _.
      destruct (mapRead w _) as [mapped|];
        [destruct (openMemory importer mapped); [discriminate|]|];
        intros code H; cbn in H; injection H as <-;
        (apply explained_map; [assumption|cbn; tauto]).
    - apply tabled_bind; [discriminate|]. intros _ _.
      destruct (openFile importer _); [discriminate|].
      intros code H. cbn in H. injection H as <-.
      apply explained_open; [assumption|cbn; tauto]. }
  intros _ _.
  apply tabled_bind.
  { unfold info. destruct (isInfoRequested args) eqn:Hinfo; [|discriminate].
    intros code. run_cases; intros H; injection H as <-;
      first [ apply explained_info_error; [assumption|simpl; tauto]
            | apply explained_info; [assumption|simpl; tauto] ]. }
  intros _ _.
  apply tabled_bind.
  { unfold checkMeshCount. destruct (meshCount importer =? 0); [|discriminate].
    intros code H. cbn in H. injection H as <-.
    apply explained_no_meshes. cbn. tauto. }
  intros _ _.
  apply tabled_bind; [apply inputMesh_tabled|]. intros mesh _.
  apply tabled_bind; [apply filterAttributes_tabled|]. intros mesh1 _.
  apply tabled_bind;
    [unfold removeDuplicatesStage; run_cases; discriminate|].
  intros mesh2 _.
  unfold removeDuplicatesFuzzyStage; run_cases; discriminate.
Qed.

Lemma main_tabled : tabled (main w args).
Proof.
  rewrite main_preparation.
  apply tabled_bind; [apply preparation_tabled|]. intros mesh _.
  apply tabled_bind.
  - intros code. apply loop_explained.
  - intros _ _. run_cases; discriminate.
Qed.

(** X1: every [return] of [main()] uses an exit code from 0 to 7, and the
    trace tells which branch it was: 0 and 1 after printed info, 1 also
    after the importer plugin list, "No meshes found", "Cannot import mesh"
    or "Cannot import scene", 2 after the converter plugin list or with
    [--only-attributes] given, 3 after the open or memory-map error that
    matches [--map], 4 after "Cannot import the mesh" without
    [--concatenate-meshes], 5 after "Cannot save file", 6 after "doesn't
    support mesh conversion", 7 after "cannot convert the mesh". *)
Theorem exit_code_explained (code : Z) :
  result (main w args) = Return code ->
  (0 <= code <= 7)%Z /\ explained args code (trace (main w args)).
Proof.
  intros H. apply main_tabled in H. split; [|assumption].
  eapply explained_range. eassumption.
Qed.

(** X2: [main()] runs to its end exactly when a [convertToFile()] call to
    the output file succeeded; a [convertToFile()] call that fails ends
    the run with exit code 5 after "Cannot save file". *)
Theorem ends_normally_iff_file_written :
  (result (main w args) = Value tt <->
   exists i mesh converter,
     In (ConverterConvertToFile i mesh (Args.output args))
        (trace (main w args)) /\
     converterManager w (name i) = Some converter /\
     convertToFile converter (Args.verbose args) (converterOptions args i)
       mesh (Args.output args) = true)
  /\
  (forall i mesh f converter,
     In (ConverterConvertToFile i mesh f) (trace (main w args)) ->
     converterManager w (name i) = Some converter ->
     convertToFile converter (Args.verbose args) (converterOptions args i)
       mesh f = false ->
     result (main w args) = Return 5%Z /\
     In (Print (Error_CannotSaveFile (Args.output args)))
        (trace (main w args))).
Proof.
  assert (Hwritten : forall i mesh f,
    In (ConverterConvertToFile i mesh f) (trace (main w args)) ->
    exists mesh0 converter,
      result (preparation w args) = Value mesh0 /\
      f = Args.output args /\
      converterManager w (name i) = Some converter /\
      result (chain mesh0) =
        if convertToFile converter (Args.verbose args)
             (converterOptions args i) mesh (Args.output args)
        then Value tt else Return 5%Z).
  { intros i mesh f Hin.
    assert (Hin' : In (ConverterConvertToFile i mesh f)
                      (fileWrites (trace (main w args))))
      by (apply filter_In; split; [assumption|reflexivity]).
    rewrite main_fileWrites in Hin'.
    destruct (result (preparation w args)) as [mesh0| |];
      try contradiction.
    destruct (chain_fileWrites _ _ w args mesh0)
      as [(k & meshk & c & Hc & Hf & Hr)|[Hf _]];
      rewrite Hf in Hin'; [|contradiction].
    destruct Hin' as [E|[]]. injection E as Ek Em Ef. subst k meshk f.
    exists mesh0, c. repeat split; assumption || reflexivity. }
  split; [split|].
  - intros Hend. rewrite main_result in Hend.
    destruct (result (preparation w args)) as [mesh0| |] eqn:Hprep;
      try discriminate.
    destruct (chain_fileWrites _ _ w args mesh0)
      as [(k & meshk & c & Hc & Hf & Hr)|[_ Hno]].
    + exists k, meshk, c. split; [|split; [assumption|]].
      * assert (Hin : In (ConverterConvertToFile k meshk (Args.output args))
                         (fileWrites (trace (main w args)))).
        { rewrite main_fileWrites, Hprep, Hf. now left. }
        apply filter_In in Hin. tauto.
      * rewrite Hr in Hend.
        destruct (convertToFile _ _ _ _ _); [reflexivity|discriminate].
    + destruct (result (chain mesh0)) as [[]| |] eqn:Hr; try discriminate.
      now destruct (Hno tt).
  - intros (i & mesh & c & Hin & Hc & Hok).
    destruct (Hwritten _ _ _ Hin) as (mesh0 & c' & Hprep & _ & Hc' & Hr).
    rewrite Hc in Hc'. injection Hc' as <-.
    rewrite main_result, Hprep, Hr, Hok. reflexivity.
  - intros i mesh f c Hin Hc Hfail.
    destruct (Hwritten _ _ _ Hin) as (mesh0 & c' & Hprep & -> & Hc' & Hr).
    rewrite Hc in Hc'. injection Hc' as <-.
    assert (Hcode : result (main w args) = Return 5%Z)
      by (rewrite main_result, Hprep, Hr, Hfail; reflexivity).
    split; [assumption|].
    apply main_tabled in Hcode. now inversion Hcode.
Qed.

(** X4: the converter plugins are loaded in the order of the command
    line, each once and under the name of its index, the implicit
    [AnySceneConverter] last; none is loaded unless the stages before the
    loop have produced a mesh. *)
Theorem converters_loaded_in_order :
  exists n,
    n <= S N /\
    loadedConverters (trace (main w args)) =
      map (fun i => (i, name i)) (seq 0 n) /\
    (n = 0 <-> forall mesh, result (preparation w args) <> Value mesh).
Proof.
  rewrite main_loadedConverters.
  destruct (result (preparation w args)) as [mesh|code|e] eqn:Hprep.
  - destruct (loop_loaded _ _ w args (S N) 0 mesh) as (n & Hl & Hn & Hpos).
    exists n. split; [lia|]. split; [exact Hl|].
    split.
    + intros ->. specialize (Hpos ltac:(lia) ltac:(lia)). lia.
    + intros H. now destruct (H mesh).
  - exists 0. split; [lia|]. split; [reflexivity|].
    split; [discriminate|reflexivity].
  - exists 0. split; [lia|]. split; [reflexivity|].
    split; [discriminate|reflexivity].
Qed.

Lemma genericChecks_events e :
  In e (trace (genericChecks args)) ->
  beforeMeshCountCheck e = true /\ e <> PrintInfo.
Proof.
  revert e. unfold genericChecks. run_cases; intros e Hin; simpl in Hin;
    repeat (destruct Hin as [<-|Hin]; [split; [reflexivity|discriminate]|]);
    contradiction.
Qed.

(** X6: an importer plugin that cannot be loaded ends the run with exit
    code 1 right after the list of known plugins; nothing is opened. *)
Theorem importer_plugin_unavailable :
  importerManager w (Args.importer args) = None ->
  main w args =
  (trace (genericChecks args) ++
   [ImporterLoadAndInstantiate (Args.importer args);
    Print (Debug_AvailableImporterPlugins (importerAliasList w))],
   Return 1%Z).
Proof.
  intros Hnone. unfold main, loadImporter. rewrite Hnone.
  pose proof (genericChecks_result args) as Hr.
  destruct (genericChecks args) as [t r]. cbn in Hr. subst r. reflexivity.
Qed.

(** X7: when the input cannot be opened (or memory-mapped, with [--map])
    the run ends with exit code 3 after the error that matches [--map];
    nothing after the open attempt happens, not even with an info option. *)
Theorem input_not_opened (importer : AbstractImporter SceneData) :
  importerManager w (Args.importer args) = Some importer ->
  opens w args importer = false ->
  result (main w args) = Return 3%Z /\
  In (Print (if Args.map args
             then Error_CannotMemoryMapFile (Args.input args)
             else Error_CannotOpenFile (Args.input args)))
     (trace (main w args)) /\
  forall e, In e (trace (main w args)) ->
            beforeMeshCountCheck e = true /\ e <> PrintInfo.
Proof.
  intros Himp Hopen.
  assert (Hfail : result (openInput w args importer) = Return 3%Z /\
                  In (Print (if Args.map args
                             then Error_CannotMemoryMapFile (Args.input args)
                             else Error_CannotOpenFile (Args.input args)))
                     (trace (openInput w args importer))).
  { revert Hopen. unfold opens, openInput.
    run_cases; intros Hopen; try discriminate;
      (split; [reflexivity|simpl; tauto]). }
  destruct Hfail as [Hr Hd]. unfold main. split; [|split].
  - rewrite result_bind, genericChecks_result.
    rewrite result_bind, (loadImporter_result _ _ w args importer Himp).
    now rewrite result_bind, Hr.
  - rewrite trace_bind, genericChecks_result. apply in_or_app. right.
    rewrite trace_bind, (loadImporter_result _ _ w args importer Himp).
    apply in_or_app. right. rewrite trace_bind. apply in_or_app. now left.
  - apply bind_events; [apply genericChecks_events|]. intros _ _.
    apply bind_events.
    { unfold loadImporter. run_cases; intros e Hin; simpl in Hin;
        repeat (destruct Hin as [<-|Hin];
                [split; [reflexivity|discriminate]|]);
        contradiction. }
    intros importer' Himp'.
    rewrite (loadImporter_result _ _ w args importer Himp) in Himp'.
    injection Himp' as <-.
    apply bind_events.
    { unfold openInput. run_cases; intros e Hin; simpl in Hin;
        repeat (destruct Hin as [<-|Hin];
                [split; [reflexivity|discriminate]|]);
        contradiction. }
    intros a Ha. rewrite Hr in Ha. discriminate.
Qed.

End MainOutcomes.

(* ===================================================================== *)
(** ** More on the stages before the converter loop *)
(* ===================================================================== *)

Section StageExtras.

Variables Matrix4 SceneData : Type.
Variable w : World Matrix4 SceneData.
Variable args : Args.t.

Lemma importMeshes_first_failure
    (importer : AbstractImporter SceneData) pre i post :
  (forall j, In j pre -> importerMesh importer j 0 <> None) ->
  importerMesh importer i 0 = None ->
  importMeshes importer (pre ++ i :: post) =
  (map (fun j => ImporterMesh j 0) (pre ++ [i])
     ++ [Print (Error_CannotImportMesh i)],
   Return 1%Z).
Proof.
  intros Hpre Hi. induction pre as [|j pre IH].
  - cbn. rewrite Hi. reflexivity.
  - cbn [app importMeshes map].
    destruct (importerMesh importer j 0) eqn:Hj.
    + rewrite IH by (intros k Hk; apply Hpre; now right). reflexivity.
    + exfalso. apply (Hpre j); [now left|assumption].
Qed.

(** X11: with [--concatenate-meshes] the meshes are imported in order
    from mesh 0 at level 0, and the first one that fails to import ends
    the run with exit code 1 after "Cannot import mesh": no later mesh is
    asked for, no scene is imported and nothing is concatenated. *)
Theorem import_stops_at_first_failure
    (importer : AbstractImporter SceneData) (i : nat) :
  Args.concatenate_meshes args = true ->
  i < meshCount importer ->
  importerMesh importer i 0 = None ->
  (forall j, j < i -> importerMesh importer j 0 <> None) ->
  inputMesh w args importer =
  (map (fun j => ImporterMesh j 0) (seq 0 (S i))
     ++ [Print (Error_CannotImportMesh i)],
   Return 1%Z).
Proof.
  intros Hcat Hlt Hi Hbefore. unfold inputMesh. rewrite Hcat.
  assert (Hsplit : seq 0 (meshCount importer) =
                   seq 0 i ++ i :: seq (S i) (meshCount importer - S i)).
  { replace (meshCount importer) with (i + S (meshCount importer - S i))
      at 1 by lia.
    rewrite seq_app. reflexivity. }
  rewrite Hsplit, importMeshes_first_failure.
  - rewrite seq_S. reflexivity.
  - intros j Hj. apply in_seq in Hj. apply Hbefore. lia.
  - assumption.
Qed.

Lemma flattenedMeshes_all meshes hierarchy :
  Forall (fun instance => fst (fst instance) < length meshes) hierarchy ->
  exists flattened,
    flattenedMeshes w meshes hierarchy =
      (map (fun instance => Transform3D (fst (fst instance))) hierarchy,
       Value flattened) /\
    Forall2 (fun instance mesh' =>
               exists mesh,
                 nth_error meshes (fst (fst instance)) = Some mesh /\
                 mesh' = transform3D w mesh (snd instance))
            hierarchy flattened.
Proof.
  induction 1 as [|[[meshId objectId] transformation] rest Hid _
                    (flattened & Hrun & Hall)].
  - exists []. split; [reflexivity|constructor].
  - cbn in Hid.
    destruct (nth_error meshes meshId) as [mesh|] eqn:Hn;
      [|apply nth_error_None in Hn; lia].
    exists (transform3D w mesh transformation :: flattened).
    cbn [flattenedMeshes map fst snd]. rewrite Hn, Hrun. split.
    + cbn. now rewrite app_nil_r.
    + constructor; [eauto|assumption].
Qed.

(** A default scene id that is not negative is passed on as it is; any
    other wraps around, as [-2] does to [4294967294]. *)
Lemma toUnsignedInt_nonnegative value :
  (0 <= value < 4294967296)%Z -> toUnsignedInt value = Z.to_nat value.
Proof.
  intros Hrange. unfold toUnsignedInt. now rewrite Z.mod_small.
Qed.

Lemma toUnsignedInt_negative value :
  (-4294967296 <= value < 0)%Z ->
  toUnsignedInt value = Z.to_nat (value + 4294967296).
Proof.
  intros Hrange. unfold toUnsignedInt. apply f_equal.
  symmetry. apply Z.mod_unique with (q := (-1)%Z); lia.
Qed.

(** X12: with a default scene, which is any [defaultScene()] other than
    [-1], the scene asked for is the one with that id converted to
    [UnsignedInt], and what gets concatenated is not the list of imported
    meshes but one transformed mesh per instance of the flattened
    hierarchy, in hierarchy order: an imported mesh the scene does not
    reference is left out, one referenced twice is taken twice.  A default
    scene that fails to import ends the run with exit code 1, the message
    naming the id as [defaultScene()] gave it. *)
Theorem flattened_meshes_follow_hierarchy
    (importer : AbstractImporter SceneData) (meshes : list MeshData) :
  defaultScene importer <> (-1)%Z ->
  let id := toUnsignedInt (defaultScene importer) in
  (scene importer id = None ->
   flattenStage w importer meshes =
   ([ImporterScene id;
     Print (Error_CannotImportScene (defaultScene importer))],
    Return 1%Z))
  /\
  (forall aScene,
     scene importer id = Some aScene ->
     Forall (fun instance => fst (fst instance) < length meshes)
            (flattenMeshHierarchy3D w aScene) ->
     exists flattened,
       flattenStage w importer meshes =
         (ImporterScene id :: FlattenMeshHierarchy3D ::
            map (fun instance => Transform3D (fst (fst instance)))
                (flattenMeshHierarchy3D w aScene),
          Value flattened) /\
       Forall2 (fun instance mesh' =>
                  exists mesh,
                    nth_error meshes (fst (fst instance)) = Some mesh /\
                    mesh' = transform3D w mesh (snd instance))
               (flattenMeshHierarchy3D w aScene) flattened).
Proof.
  intros Hdefault id. unfold flattenStage.
  apply Z.eqb_neq in Hdefault. rewrite Hdefault. cbn [negb]. fold id.
  split.
  - intros ->. reflexivity.
  - intros aScene -> Hrange.
    destruct (flattenedMeshes_all meshes _ Hrange) as (flattened & Hrun & Hall).
    exists flattened. split; [|assumption].
    unfold bind, emit. rewrite Hrun. reflexivity.
Qed.

(** A conversion call in a run of [main()] is one of the converter loop,
    entered with the mesh the stages before it produced. *)
Lemma main_conversion e x :
  In e (trace (main w args)) -> conversionInput e = Some x ->
  exists mesh, result (preparation w args) = Value mesh /\
               In e (trace (converterChain w args mesh)).
Proof.
  intros He Hin.
  assert (Hhop : hopOf e <> None) by (destruct e; discriminate).
  rewrite main_trace in He. apply in_app_or in He. destruct He as [He|He].
  - now apply preparation_no_hop in He.
  - destruct (result (preparation w args)) as [mesh| |];
      try contradiction.
    exists mesh. split; [reflexivity|].
    apply in_app_or in He. destruct He as [He|He]; [assumption|].
    destruct (result (converterChain w args mesh)); try contradiction.
    now apply profile_no_hop in He.
Qed.

Lemma removeDuplicatesStage_result mesh :
  result (removeDuplicatesStage w args mesh) =
  Value (if Args.remove_duplicates args then removeDuplicates w mesh
         else mesh).
Proof. unfold removeDuplicatesStage. run_cases; reflexivity. Qed.

Lemma removeDuplicatesFuzzyStage_result mesh :
  result (removeDuplicatesFuzzyStage w args mesh) =
  Value (if negb (isEmpty (Args.remove_duplicates_fuzzy args))
         then removeDuplicatesFuzzy w mesh (Args.remove_duplicates_fuzzy args)
         else mesh).
Proof. unfold removeDuplicatesFuzzyStage. run_cases; reflexivity. Qed.

(** X13: the stages run in the order import, attribute filter, exact
    duplicate removal, fuzzy duplicate removal: the first converter gets
    the imported mesh with the attributes filtered first and the
    duplicates removed from that, exactly and then fuzzily. *)
Theorem stages_run_in_order
    (importer : AbstractImporter SceneData) (mesh filtered : MeshData) :
  importerManager w (Args.importer args) = Some importer ->
  opens w args importer = true ->
  isInfoRequested args = false ->
  meshCount importer <> 0 ->
  result (inputMesh w args importer) = Value mesh ->
  result (filterAttributes w args mesh) = Value filtered ->
  let exact :=
    if Args.remove_duplicates args then removeDuplicates w filtered
    else filtered in
  let fuzzy :=
    if negb (isEmpty (Args.remove_duplicates_fuzzy args))
    then removeDuplicatesFuzzy w exact (Args.remove_duplicates_fuzzy args)
    else exact in
  result (preparation w args) = Value fuzzy /\
  forall e m, In e (trace (main w args)) ->
              conversionInput e = Some (0, m) -> m = fuzzy.
Proof.
  intros Himp Hopen Hinfo Hcount Hmesh Hfiltered exact fuzzy.
  assert (Hprep : result (preparation w args) = Value fuzzy).
  { unfold preparation.
    rewrite result_bind, genericChecks_result.
    rewrite result_bind, (loadImporter_result _ _ w args importer Himp).
    rewrite result_bind, (openInput_result _ _ w args importer Hopen).
    rewrite (info_not_requested _ _ w args importer Hinfo).
    rewrite result_bind. cbn [ret result snd].
    rewrite result_bind. unfold checkMeshCount.
    apply Nat.eqb_neq in Hcount. rewrite Hcount. cbn [ret result snd].
    rewrite result_bind, Hmesh, result_bind, Hfiltered, result_bind.
    rewrite removeDuplicatesStage_result.
    apply removeDuplicatesFuzzyStage_result. }
  split; [assumption|].
  intros e m He Hin.
  destruct (main_conversion e _ He Hin) as (mesh0 & Hprep' & He').
  rewrite Hprep in Hprep'. injection Hprep' as <-.
  eapply chain_first_input; eassumption.
Qed.

End StageExtras.

(* ===================================================================== *)
(** ** Colored output *)
(* ===================================================================== *)

(** X14: 24-bit colors are only ever asked for with colors enabled; the
    values [on], [4bit] and [off] of [--color] decide alone, whatever the
    terminal and [COLORTERM]; every other value, not only [auto], enables
    colors exactly on a TTY and 24-bit colors exactly when [COLORTERM] is
    [truecolor] or [24bit]. *)
Theorem color_output
    (color : string) (isTty : bool) (COLORTERM : option string) :
  (snd (colorOutput color isTty COLORTERM) = true ->
   fst (colorOutput color isTty COLORTERM) = NoFlags)
  /\
  (color = "on" \/ color = "4bit" \/ color = "off" ->
   forall isTty' COLORTERM',
     colorOutput color isTty COLORTERM = colorOutput color isTty' COLORTERM')
  /\
  (color <> "on" -> color <> "4bit" -> color <> "off" ->
   colorOutput color isTty COLORTERM =
     if isTty
     then (NoFlags,
           match COLORTERM with
           | Some value =>
               String.eqb value "truecolor" || String.eqb value "24bit"
           | None => false
           end)
     else (DisableColors, false)).
Proof.
  unfold colorOutput. split; [|split].
  - destruct (String.eqb color "on"); [reflexivity|].
    destruct (String.eqb color "4bit"); [reflexivity|].
    destruct (String.eqb color "off"); [discriminate|].
    destruct isTty; [reflexivity|discriminate].
  - intros [-> | [-> | ->]]; reflexivity.
  - intros Hon H4 Hoff.
    apply String.eqb_neq in Hon, H4, Hoff. rewrite Hon, H4, Hoff.
    destruct isTty; [|reflexivity]. now destruct COLORTERM.
Qed.

(* ===================================================================== *)
(** ** The further properties on concrete runs *)
(* ===================================================================== *)

Lemma exit_code_explained_witness :
  let w := Example.world [Example.triangle] Example.toFile in
  let args :=
    Example.arguments "chair.ply" ["Featureless"; "StanfordSceneConverter"]
      [] "" false false in
  (0 <= 6 <= 7)%Z /\ explained args 6 (trace (main w args)).
Proof.
  intros w args.
  apply (exit_code_explained unit unit w args 6%Z). reflexivity.
Defined.

Lemma importer_plugin_unavailable_witness :
  let w := Example.world [Example.triangle] Example.toFile in
  let args :=
    Scenario.arguments (Example.arguments "chair.ply" [] [] "" false false)
      "GltfImporter" false false false "" in
  main w args =
  ([ImporterLoadAndInstantiate "GltfImporter";
    Print (Debug_AvailableImporterPlugins ["AnySceneImporter"])],
   Return 1%Z).
Proof.
  intros w args.
  apply (importer_plugin_unavailable unit unit w args). reflexivity.
Defined.

Lemma input_not_opened_witness :
  let w :=
    Scenario.world (Scenario.importer false [Some Example.triangle] [] (-1)) in
  let args := Example.arguments "chair.ply" [] [] "" false true in
  result (main w args) = Return 3%Z /\
  In (Print (Error_CannotOpenFile "chair.obj")) (trace (main w args)) /\
  forall e, In e (trace (main w args)) ->
            beforeMeshCountCheck e = true /\ e <> PrintInfo.
Proof.
  intros w args.
  apply (input_not_opened Z Scenario.Scene w args
           (Scenario.importer false [Some Example.triangle] [] (-1)));
    reflexivity.
Defined.

Lemma converter_plugin_unavailable_witness :
  let w := Example.world [Example.triangle] Example.toFile in
  let args :=
    Example.arguments "chair.ply"
      ["MeshOptimizerSceneConverter"; "GltfSceneConverter"] [] ""
      false false in
  let run := trace (converterChain w args Example.triangle) in
  result (converterChain w args Example.triangle) = Return 2%Z /\
  In (Print (Debug_AvailableConverterPlugins (converterAliasList w))) run /\
  (forall e k, In e run -> hopOf e = Some k -> k <= 1) /\
  (forall e, In e run -> hopOf e = Some 1 -> isConversion e = false).
Proof.
  intros w args run.
  apply (converter_plugin_unavailable unit unit w args Example.triangle 1).
  - cbv. tauto.
  - reflexivity.
Defined.

Lemma conversion_failure_stops_chain_witness :
  let w :=
    Scenario.world (Scenario.importer true [Some Example.triangle] [] (-1)) in
  let args :=
    Example.arguments "chair.ply" ["MeshOptimizerSceneConverter"; "Failing"]
      [] "" false false in
  let run := trace (converterChain w args Example.triangle) in
  result (converterChain w args Example.triangle) = Return 7%Z /\
  In (Print (Error_CannotConvertTheMesh "Failing")) run /\
  (forall e k, In e run -> hopOf e = Some k -> k <= 1).
Proof.
  intros w args run.
  apply (conversion_failure_stops_chain Z Scenario.Scene w args
           Example.triangle 1 Example.triangle Scenario.failing).
  - cbv. tauto.
  - reflexivity.
  - reflexivity.
Defined.

Lemma import_stops_at_first_failure_witness :
  let anImporter :=
    Scenario.importer true [Some Example.triangle; None; Some Example.quad]
      [] (-1) in
  inputMesh (Scenario.world anImporter)
    (Example.arguments "chair.ply" [] [] "" true false) anImporter =
  ([ImporterMesh 0 0; ImporterMesh 1 0; Print (Error_CannotImportMesh 1)],
   Return 1%Z).
Proof.
  intros anImporter.
  apply (import_stops_at_first_failure Z Scenario.Scene
           (Scenario.world anImporter)
           (Example.arguments "chair.ply" [] [] "" true false) anImporter 1).
  - reflexivity.
  - cbn. lia.
  - reflexivity.
  - intros j Hj. assert (j = 0) as -> by lia. discriminate.
Defined.

Lemma flattened_meshes_follow_hierarchy_witness :
  let hierarchy := [(1, 0%Z, 5%Z); (1, 1%Z, 7%Z)] in
  let anImporter :=
    Scenario.importer true [Some Example.triangle; Some Example.quad]
      [hierarchy] 0 in
  let meshes := [Example.triangle; Example.quad] in
  exists flattened,
    flattenStage (Scenario.world anImporter) anImporter meshes =
      ([ImporterScene 0; FlattenMeshHierarchy3D; Transform3D 1; Transform3D 1],
       Value flattened) /\
    Forall2 (fun instance mesh' =>
               exists mesh,
                 nth_error meshes (fst (fst instance)) = Some mesh /\
                 mesh' = Scenario.translate mesh (snd instance))
            hierarchy flattened.
Proof.
  intros hierarchy anImporter meshes.
  refine (proj2 (flattened_meshes_follow_hierarchy Z Scenario.Scene
                   (Scenario.world anImporter) anImporter meshes _)
                hierarchy _ _).
  - discriminate.
  - reflexivity.
  - repeat constructor.
Defined.

Lemma stages_run_in_order_witness :
  let anImporter := Scenario.importer true [Some Example.triangle] [] (-1) in
  let w := Scenario.world anImporter in
  let args :=
    Scenario.arguments
      (Example.arguments "chair.ply" [] [] "2,0" false false)
      "AnySceneImporter" false false true "0.001" in
  let filtered :=
    {| primitive := Triangles; indices := Some [0; 2; 1];
       vertexData := [10; 11; 12]%Z;
       attributes := [Example.textureCoordinates; Example.position];
       vertexCount := 3 |} in
  let fuzzy :=
    removeDuplicatesFuzzy w (removeDuplicates w filtered) "0.001" in
  result (preparation w args) = Value fuzzy /\
  forall e m, In e (trace (main w args)) ->
              conversionInput e = Some (0, m) -> m = fuzzy.
Proof.
  intros anImporter w args filtered fuzzy.
  apply (stages_run_in_order Z Scenario.Scene w args anImporter
           Example.triangle filtered); try reflexivity.
  discriminate.
Defined.

(** With [--verbose] and two requested converters that only convert in
    memory, the implicit [AnySceneConverter] saves as number 3 of 2. *)
Example progress_counts_past_the_total :
  converterChain
    (Example.world [Example.triangle] Example.toFile)
    (Scenario.arguments
       (Example.arguments "chair.ply"
          ["MeshOptimizerSceneConverter"; "MeshOptimizerSceneConverter"]
          [] "" false false)
       "AnySceneImporter" false true false "")
    Example.triangle
  = ([ConverterLoadAndInstantiate 0 "MeshOptimizerSceneConverter";
      ConverterAddFlags 0;
      Print (Debug_Processing 1 2 "MeshOptimizerSceneConverter");
      ConverterConvert 0 Example.triangle;
      ConverterLoadAndInstantiate 1 "MeshOptimizerSceneConverter";
      ConverterAddFlags 1;
      Print (Debug_Processing 2 2 "MeshOptimizerSceneConverter");
      ConverterConvert 1 Example.triangle;
      ConverterLoadAndInstantiate 2 "AnySceneConverter";
      ConverterAddFlags 2;
      Print (Debug_SavingOutput 3 2 "AnySceneConverter");
      ConverterConvertToFile 2 Example.triangle "chair.ply"],
     Value tt).
Proof. reflexivity. Qed.

(** A [convertToFile()] that fails: one call, exit code 5. *)
Example failed_save_run :
  main (Scenario.world
          (Scenario.importer true [Some Example.triangle] [] (-1)))
       (Example.arguments "chair.ply" ["ReadOnly"] [] "" false false)
  = ([ImporterLoadAndInstantiate "AnySceneImporter";
      ImporterSetOptions "";
      ImporterOpenFile "chair.obj";
      ImporterMesh 0 0;
      ConverterLoadAndInstantiate 0 "ReadOnly";
      ConverterConvertToFile 0 Example.triangle "chair.ply";
      Print (Error_CannotSaveFile "chair.ply")],
     Return 5%Z).
Proof. reflexivity. Qed.

(** A default scene that takes the second mesh twice and the first not at
    all: the merged mesh is made of the two translated copies. *)
Example scene_instances_run :
  result
    (inputMesh
       (Scenario.world
          (Scenario.importer true [Some Example.triangle; Some Example.quad]
             [[(1, 0%Z, 5%Z); (1, 1%Z, 7%Z)]] 0))
       (Example.arguments "chair.ply" [] [] "" true false)
       (Scenario.importer true [Some Example.triangle; Some Example.quad]
          [[(1, 0%Z, 5%Z); (1, 1%Z, 7%Z)]] 0))
  = Value {| primitive := Triangles; indices := None;
             vertexData := [25; 26; 27; 28; 29; 30;
                            27; 28; 29; 30; 31; 32]%Z;
             attributes := attributes Example.quad;
             vertexCount := 12 |}.
Proof. reflexivity. Qed.

(** A negative default scene other than [-1]: the importer is asked for
    the wrapped-around id, the message names the id as it was. *)
Example negative_default_scene_run :
  let anImporter := Scenario.importer true [Some Example.triangle] [] (-2) in
  flattenStage (Scenario.world anImporter) anImporter [Example.triangle] =
  ([ImporterScene (Z.to_nat 4294967294);
    Print (Error_CannotImportScene (-2))], Return 1%Z).
Proof.
  intros anImporter. unfold flattenStage.
  change (defaultScene anImporter) with (-2)%Z.
  rewrite (toUnsignedInt_negative (-2)) by lia.
  change (-2 + 4294967296)%Z with 4294967294%Z.
  change (scene anImporter (Z.to_nat 4294967294))
    with (@nth_error Scenario.Scene [] (Z.to_nat 4294967294)).
  rewrite nth_error_nil. reflexivity.
Qed.

Lemma loop_asserts_only_without_file_output_witness :
  let w := Example.world [Example.triangle] Example.inMemory in
  let args := Example.arguments "chair.ply" [] [] "" false false in
  "i < converterCount" = "i < converterCount" /\
  In (ConverterLoadAndInstantiate (converterCount args) "AnySceneConverter")
     (trace (converterChain w args Example.triangle)) /\
  exists converter,
    converterManager w "AnySceneConverter" = Some converter /\
    hasFeature (features converter) ConvertMeshToFile = false.
Proof.
  intros w args.
  apply (loop_asserts_only_without_file_output unit unit w args
           Example.triangle "i < converterCount").
  reflexivity.
Defined.
